(** * Pontoon boat design calculator

    A shallow embedding of the computational core of [pontoon_calc.py]:
    the forward calculation [calculate_design] and the inverse sizing
    heuristic [optimize_design].

    Numbers.  Python's [float] is read as a real number: every arithmetic
    operator is the exact operation on [R], a decimal literal denotes its
    decimal value, and rounding error, overflow and NaN are outside the
    model.  What the interpreter does beyond arithmetic is kept: a float
    division by zero raises [ZeroDivisionError], a negative base under a
    fractional exponent yields a [complex], and [round] of a [complex]
    raises [TypeError].  The one [int] among the inputs
    ([num_cross_beams]) is a [Z].

    The ['explanation'] entry of the result (formatted text) is
    presentation and is not embedded. *)

From Stdlib Require Import Reals Lra Lia ZArith List String.
Import ListNotations.
Local Open Scope R_scope.

(** ** The Python runtime, as far as the two functions use it *)

Inductive exception : Set :=
| ZeroDivisionError
| TypeError.

(** A call either returns a value or raises. *)
Inductive outcome (A : Type) : Type :=
| Returns (a : A)
| Raises (e : exception).

Arguments Returns {A} a.
Arguments Raises {A} e.

Definition bind {A B : Type} (c : outcome A) (k : A -> outcome B) : outcome B :=
  match c with
  | Returns a => k a
  | Raises e => Raises e
  end.

Notation "x <- c ;; k" := (bind c (fun x => k))
  (at level 61, c at next level, right associativity).

(** [x / y] on floats. *)
Definition float_div (x y : R) : outcome R :=
  if Req_dec_T y 0 then Raises ZeroDivisionError else Returns (x / y).

(** The result of [**] on floats is a float or a complex. *)
Inductive number : Type :=
| Float (x : R)
| Complex (re im : R).

(** [x ** y] on floats ([float.__pow__]): anything to the power zero is
    one; zero to a negative power raises; a negative base with a
    non-integral exponent goes to the complex power, the principal value
    [|x|^y * (cos (y*pi) + i sin (y*pi))].  The [OverflowError] of a
    result beyond the range of a float has no counterpart on the reals. *)
Definition float_pow (x y : R) : outcome number :=
  if Req_dec_T y 0 then Returns (Float 1)
  else if Req_dec_T x 0 then
    if Rlt_dec y 0 then Raises ZeroDivisionError else Returns (Float 0)
  else if Rlt_dec 0 x then Returns (Float (Rpower x y))
  else if Req_dec_T (IZR (Zfloor y)) y then Returns (Float (powerRZ x (Zfloor y)))
  else Returns (Complex (Rpower (- x) y * cos (y * PI)) (Rpower (- x) y * sin (y * PI))).

(** [a * k] where [k] is a float. *)
Definition number_mul (a : number) (k : R) : number :=
  match a with
  | Float x => Float (x * k)
  | Complex re im => Complex (re * k) (im * k)
  end.

(** Round half to even, the rule of [round] on floats. *)
Definition round_half_even (x : R) : Z :=
  let f := Zfloor x in
  if Rlt_dec (x - IZR f) (1 / 2) then f
  else if Rlt_dec (1 / 2) (x - IZR f) then (f + 1)%Z
  else if Z.even f then f else (f + 1)%Z.

(** [round(a)]: an [int]; [complex] has no [__round__].  The errors of
    [round] on an infinity or a NaN have no counterpart on the reals. *)
Definition round (a : number) : outcome Z :=
  match a with
  | Float x => Returns (round_half_even x)
  | Complex _ _ => Raises TypeError
  end.

(** [round(a, ndigits)]: a float with [ndigits] decimals. *)
Definition round_ndigits (a : number) (ndigits : nat) : outcome R :=
  match a with
  | Float x => Returns (IZR (round_half_even (x * 10 ^ ndigits)) / 10 ^ ndigits)
  | Complex _ _ => Raises TypeError
  end.

(** [math.pi]: the float that the literal [3.141592653589793] denotes. *)
Definition math_pi : R := 3.141592653589793.

(** ** Data model *)

(** The [params] dict; every call site supplies all twelve keys. *)
Module Params.
Record t : Type := mk {
    payload : R;
    safety_factor : R;
    submersion_pct : R;
    diameter_in : R;
    length_ft : R;
    cone_pct : R;
    foam_density : R;
    coating_weight : R;
    water_density : R;
    cross_beam_length : R;
    num_cross_beams : Z;
    tube_weight : R
  }.
End Params.

Definition VIABLE : string := "VIABLE".
Definition INSUFFICIENT_BUOYANCY : string := "INSUFFICIENT BUOYANCY".

(** The [results] dict of [calculate_design], one field per key that
    holds a number or the status. *)
Module Results.
Record t : Type := mk {
    total_boat_weight : R;
    total_buoyant_force : R;
    actual_safety_factor : R;
    reserve_buoyancy : R;
    draft_in : R;
    volume_per_pontoon : R;
    cylinder_length : R;
    cone_length : R;
    pontoon_weight : R;
    frame_weight : R;
    total_volume_both : R;
    total_surface_area_both : R;
    total_tube_length : R;
    status : string
  }.

(** A value of the dict: a float, a string, or the formatted
    explanation, whose text is not embedded. *)
Inductive value : Type :=
  | Num (x : R)
  | Str (s : string)
  | Text.

(** The dict's items, in the order of the literal. *)
Definition items (r : t) : list (string * value) :=
    [ ("total_boat_weight", Num (total_boat_weight r));
      ("total_buoyant_force", Num (total_buoyant_force r));
      ("actual_safety_factor", Num (actual_safety_factor r));
      ("reserve_buoyancy", Num (reserve_buoyancy r));
      ("draft_in", Num (draft_in r));
      ("volume_per_pontoon", Num (volume_per_pontoon r));
      ("cylinder_length", Num (cylinder_length r));
      ("cone_length", Num (cone_length r));
      ("pontoon_weight", Num (pontoon_weight r));
      ("frame_weight", Num (frame_weight r));
      ("total_volume_both", Num (total_volume_both r));
      ("total_surface_area_both", Num (total_surface_area_both r));
      ("total_tube_length", Num (total_tube_length r));
      ("status", Str (status r));
      ("explanation", Text) ]%string.

Definition keys (r : t) : list string := map fst (items r).
End Results.

(** ** [calculate_design] *)

(** The local variables of [calculate_design], in program order. *)
Module CalculateDesign.
Section locals.
Variable params : Params.t.

(* Unpack inputs *)
Definition payload := Params.payload params.
Definition safety_factor := Params.safety_factor params.
Definition submersion_pct := Params.submersion_pct params / 100.
Definition diameter_in := Params.diameter_in params.
Definition diameter_ft := diameter_in / 12.
Definition length_ft := Params.length_ft params.
Definition cone_pct := Params.cone_pct params / 100.
Definition foam_density := Params.foam_density params.
Definition coating_weight := Params.coating_weight params.
Definition water_density := Params.water_density params.
Definition cross_beam_length := Params.cross_beam_length params.
Definition num_cross_beams := Params.num_cross_beams params.
Definition tube_weight := Params.tube_weight params.

(* 1) Pontoon geometry *)
Definition radius_ft := diameter_ft / 2.
Definition cone_length_ft := length_ft * cone_pct.
Definition cylinder_length_ft := length_ft * (1 - cone_pct).

Definition cylinder_volume :=
    3.141592653589793 * radius_ft ^ 2 * cylinder_length_ft.
Definition cone_volume :=
    (1 / 3) * 3.141592653589793 * radius_ft ^ 2 * cone_length_ft.
Definition total_volume_per_pontoon := cylinder_volume + cone_volume.
Definition total_volume_both := 2 * total_volume_per_pontoon.

(* Surface areas *)
Definition cylinder_surface_area :=
    2 * 3.141592653589793 * radius_ft * cylinder_length_ft.
Definition slant_height := sqrt (radius_ft ^ 2 + cone_length_ft ^ 2).
Definition cone_surface_area := 3.141592653589793 * radius_ft * slant_height.
Definition end_cap_area := 3.141592653589793 * radius_ft ^ 2.
Definition total_surface_area_per_pontoon :=
    cylinder_surface_area + cone_surface_area + end_cap_area.
Definition total_surface_area_both := 2 * total_surface_area_per_pontoon.

(* 2) Weight calculations *)
Definition foam_weight_per_pontoon := total_volume_per_pontoon * foam_density.
Definition coating_weight_per_pontoon :=
    total_surface_area_per_pontoon * coating_weight.
Definition pontoon_weight :=
    2 * (foam_weight_per_pontoon + coating_weight_per_pontoon).

Definition total_tube_length :=
    (IZR num_cross_beams * cross_beam_length) + (2 * length_ft).
Definition frame_weight := total_tube_length * tube_weight.

Definition total_boat_weight := payload + pontoon_weight + frame_weight.

(* 3) Buoyancy and displacement *)
Definition submerged_volume_per_pontoon :=
    total_volume_per_pontoon * submersion_pct.
Definition total_buoyant_force :=
    2 * submerged_volume_per_pontoon * water_density.

Definition required_displacement := total_boat_weight * safety_factor.

Definition draft_ft := diameter_ft * submersion_pct.

Definition actual_safety_factor : outcome R :=
    float_div total_buoyant_force total_boat_weight.
Definition reserve_buoyancy := total_buoyant_force - total_boat_weight.

(* 4) Status *)
Definition status : string :=
    if Rlt_dec total_buoyant_force required_displacement
    then INSUFFICIENT_BUOYANCY
    else VIABLE.

(* Collect results *)
Definition results : outcome Results.t :=
    asf <- actual_safety_factor ;;
    Returns {|
      Results.total_boat_weight := total_boat_weight;
      Results.total_buoyant_force := total_buoyant_force;
      Results.actual_safety_factor := asf;
      Results.reserve_buoyancy := reserve_buoyancy;
      Results.draft_in := draft_ft * 12;
      Results.volume_per_pontoon := total_volume_per_pontoon;
      Results.cylinder_length := cylinder_length_ft;
      Results.cone_length := cone_length_ft;
      Results.pontoon_weight := pontoon_weight;
      Results.frame_weight := frame_weight;
      Results.total_volume_both := total_volume_both;
      Results.total_surface_area_both := total_surface_area_both;
      Results.total_tube_length := total_tube_length;
      Results.status := status
    |}.
End locals.
End CalculateDesign.

Definition calculate_design (params : Params.t) : outcome Results.t :=
  CalculateDesign.results params.

(** ** [optimize_design] *)

Module OptimizeDesign.
Section locals.
Variable params : Params.t.

Definition payload := Params.payload params.
Definition safety_factor := Params.safety_factor params.
Definition submersion_pct := Params.submersion_pct params / 100.
Definition water_density := Params.water_density params.

Definition estimated_weight := payload * 1.4.
Definition required_disp := estimated_weight * safety_factor.
Definition required_vol_per_pontoon : outcome R :=
    float_div (required_disp / 2) (water_density * submersion_pct).

Definition diameter_ft : outcome number :=
    v <- required_vol_per_pontoon ;;
    float_pow (v / math_pi) (1 / 3).
Definition length_ft : outcome number :=
    d <- diameter_ft ;; Returns (number_mul d 4).

Definition diameter_in : outcome number :=
    d <- diameter_ft ;; Returns (number_mul d 12).

Definition result : outcome (Z * R) :=
    d <- diameter_in ;;
    l <- length_ft ;;
    new_dia <- round d ;;
    new_len <- round_ndigits l 2 ;;
    Returns (new_dia, new_len).
End locals.
End OptimizeDesign.

Definition optimize_design (params : Params.t) : outcome (Z * R) :=
  OptimizeDesign.result params.

(** ** The caller: [on_optimize] *)

(** What [on_optimize] does with the caller's record: the new diameter
    and length replace the old ones, everything else is kept. *)
Definition resize (params : Params.t) (new_dia : Z) (new_len : R) : Params.t :=
  {| Params.payload := Params.payload params;
     Params.safety_factor := Params.safety_factor params;
     Params.submersion_pct := Params.submersion_pct params;
     Params.diameter_in := IZR new_dia;
     Params.length_ft := new_len;
     Params.cone_pct := Params.cone_pct params;
     Params.foam_density := Params.foam_density params;
     Params.coating_weight := Params.coating_weight params;
     Params.water_density := Params.water_density params;
     Params.cross_beam_length := Params.cross_beam_length params;
     Params.num_cross_beams := Params.num_cross_beams params;
     Params.tube_weight := Params.tube_weight params |}.

(** [on_optimize]: optimize, update the two fields, recalculate. *)
Definition on_optimize (params : Params.t) : outcome Results.t :=
  size <- optimize_design params ;;
  calculate_design (resize params (fst size) (snd size)).

(** ** Inputs *)

(** The defaults of the input form, which are the specification's
    literal scenario. *)
Definition literal_scenario : Params.t :=
  {| Params.payload := 100;
     Params.safety_factor := 1.8;
     Params.submersion_pct := 60;
     Params.diameter_in := 12;
     Params.length_ft := 6;
     Params.cone_pct := 25;
     Params.foam_density := 1.0;
     Params.coating_weight := 0.03;
     Params.water_density := 64;
     Params.cross_beam_length := 4;
     Params.num_cross_beams := 4;
     Params.tube_weight := 0.78 |}.

(** The mission of the literal scenario with any diameter and length in
    the two fields that the optimizer overwrites. *)
Definition mission (diameter_in length_ft : R) : Params.t :=
  {| Params.payload := 100;
     Params.safety_factor := 1.8;
     Params.submersion_pct := 60;
     Params.diameter_in := diameter_in;
     Params.length_ft := length_ft;
     Params.cone_pct := 25;
     Params.foam_density := 1.0;
     Params.coating_weight := 0.03;
     Params.water_density := 64;
     Params.cross_beam_length := 4;
     Params.num_cross_beams := 4;
     Params.tube_weight := 0.78 |}.

(** The literal scenario without a cone. *)
Definition no_cone : Params.t :=
  {| Params.payload := 100;
     Params.safety_factor := 1.8;
     Params.submersion_pct := 60;
     Params.diameter_in := 12;
     Params.length_ft := 6;
     Params.cone_pct := 0;
     Params.foam_density := 1.0;
     Params.coating_weight := 0.03;
     Params.water_density := 64;
     Params.cross_beam_length := 4;
     Params.num_cross_beams := 4;
     Params.tube_weight := 0.78 |}.

(** The weightless boat of the specification's edge case; the fields that
    the case leaves open are at the defaults of the input form. *)
Definition weightless : Params.t :=
  {| Params.payload := 0;
     Params.safety_factor := 1.8;
     Params.submersion_pct := 60;
     Params.diameter_in := 12;
     Params.length_ft := 6;
     Params.cone_pct := 25;
     Params.foam_density := 0;
     Params.coating_weight := 0;
     Params.water_density := 64;
     Params.cross_beam_length := 0;
     Params.num_cross_beams := 0;
     Params.tube_weight := 0 |}.

(** The literal scenario with nothing to carry. *)
Definition no_payload : Params.t :=
  {| Params.payload := 0;
     Params.safety_factor := 1.8;
     Params.submersion_pct := 60;
     Params.diameter_in := 12;
     Params.length_ft := 6;
     Params.cone_pct := 25;
     Params.foam_density := 1.0;
     Params.coating_weight := 0.03;
     Params.water_density := 64;
     Params.cross_beam_length := 4;
     Params.num_cross_beams := 4;
     Params.tube_weight := 0.78 |}.

(** The literal scenario with a negative payload. *)
Definition negative_payload : Params.t :=
  {| Params.payload := -100;
     Params.safety_factor := 1.8;
     Params.submersion_pct := 60;
     Params.diameter_in := 12;
     Params.length_ft := 6;
     Params.cone_pct := 25;
     Params.foam_density := 1.0;
     Params.coating_weight := 0.03;
     Params.water_density := 64;
     Params.cross_beam_length := 4;
     Params.num_cross_beams := 4;
     Params.tube_weight := 0.78 |}.

(** Bare foam: no payload, no coating, weightless tubes. *)
Definition bare_foam : Params.t :=
  {| Params.payload := 0;
     Params.safety_factor := 1.8;
     Params.submersion_pct := 60;
     Params.diameter_in := 12;
     Params.length_ft := 6;
     Params.cone_pct := 25;
     Params.foam_density := 1.0;
     Params.coating_weight := 0;
     Params.water_density := 64;
     Params.cross_beam_length := 4;
     Params.num_cross_beams := 4;
     Params.tube_weight := 0 |}.

(** The same input with another diameter. *)
Definition with_diameter_in (params : Params.t) (d : R) : Params.t :=
  {| Params.payload := Params.payload params;
     Params.safety_factor := Params.safety_factor params;
     Params.submersion_pct := Params.submersion_pct params;
     Params.diameter_in := d;
     Params.length_ft := Params.length_ft params;
     Params.cone_pct := Params.cone_pct params;
     Params.foam_density := Params.foam_density params;
     Params.coating_weight := Params.coating_weight params;
     Params.water_density := Params.water_density params;
     Params.cross_beam_length := Params.cross_beam_length params;
     Params.num_cross_beams := Params.num_cross_beams params;
     Params.tube_weight := Params.tube_weight params |}.

(** ** The operand of the cube root in [optimize_design] *)

(** The operand of the cube root: the required volume per pontoon over
    pi. *)
Definition radicand (p : Params.t) : R :=
  Params.payload p * 1.4 * Params.safety_factor p / 2
  / (Params.water_density p * (Params.submersion_pct p / 100))
  / math_pi.

(** ** Further inputs *)

(** The same input with another safety factor. *)
Definition with_safety_factor (params : Params.t) (sf : R) : Params.t :=
  {| Params.payload := Params.payload params;
     Params.safety_factor := sf;
     Params.submersion_pct := Params.submersion_pct params;
     Params.diameter_in := Params.diameter_in params;
     Params.length_ft := Params.length_ft params;
     Params.cone_pct := Params.cone_pct params;
     Params.foam_density := Params.foam_density params;
     Params.coating_weight := Params.coating_weight params;
     Params.water_density := Params.water_density params;
     Params.cross_beam_length := Params.cross_beam_length params;
     Params.num_cross_beams := Params.num_cross_beams params;
     Params.tube_weight := Params.tube_weight params |}.

(** The same input with another payload. *)
Definition with_payload (params : Params.t) (w : R) : Params.t :=
  {| Params.payload := w;
     Params.safety_factor := Params.safety_factor params;
     Params.submersion_pct := Params.submersion_pct params;
     Params.diameter_in := Params.diameter_in params;
     Params.length_ft := Params.length_ft params;
     Params.cone_pct := Params.cone_pct params;
     Params.foam_density := Params.foam_density params;
     Params.coating_weight := Params.coating_weight params;
     Params.water_density := Params.water_density params;
     Params.cross_beam_length := Params.cross_beam_length params;
     Params.num_cross_beams := Params.num_cross_beams params;
     Params.tube_weight := Params.tube_weight params |}.

(** The same input with another length. *)
Definition with_length_ft (params : Params.t) (l : R) : Params.t :=
  {| Params.payload := Params.payload params;
     Params.safety_factor := Params.safety_factor params;
     Params.submersion_pct := Params.submersion_pct params;
     Params.diameter_in := Params.diameter_in params;
     Params.length_ft := l;
     Params.cone_pct := Params.cone_pct params;
     Params.foam_density := Params.foam_density params;
     Params.coating_weight := Params.coating_weight params;
     Params.water_density := Params.water_density params;
     Params.cross_beam_length := Params.cross_beam_length params;
     Params.num_cross_beams := Params.num_cross_beams params;
     Params.tube_weight := Params.tube_weight params |}.

(** The same mission and materials on a pontoon without a cone, [D] feet
    across and four times as long: the shape that [optimize_design]
    sizes. *)
Definition plain_cylinder (params : Params.t) (D : R) : Params.t :=
  {| Params.payload := Params.payload params;
     Params.safety_factor := Params.safety_factor params;
     Params.submersion_pct := Params.submersion_pct params;
     Params.diameter_in := D * 12;
     Params.length_ft := D * 4;
     Params.cone_pct := 0;
     Params.foam_density := Params.foam_density params;
     Params.coating_weight := Params.coating_weight params;
     Params.water_density := Params.water_density params;
     Params.cross_beam_length := Params.cross_beam_length params;
     Params.num_cross_beams := Params.num_cross_beams params;
     Params.tube_weight := Params.tube_weight params |}.

(** The literal scenario as an all-cone pontoon. *)
Definition all_cone : Params.t :=
  {| Params.payload := 100;
     Params.safety_factor := 1.8;
     Params.submersion_pct := 60;
     Params.diameter_in := 12;
     Params.length_ft := 6;
     Params.cone_pct := 100;
     Params.foam_density := 1.0;
     Params.coating_weight := 0.03;
     Params.water_density := 64;
     Params.cross_beam_length := 4;
     Params.num_cross_beams := 4;
     Params.tube_weight := 0.78 |}.

(** ** The chart: the numbers of [_update_chart] *)

(** [max] of a list of floats; [None] is the [ValueError] of an empty
    list.  The scan keeps the first of equal maxima, as [max] does. *)
Definition max (l : list R) : option R :=
  match l with
  | [] => None
  | x :: xs => Some (fold_left (fun m v => if Rlt_dec m v then v else m) xs x)
  end.

(** The three bars, the upper limit of the y axis, and the heights at
    which the values are written above the bars (a bar is as high as its
    value). *)
Module UpdateChart.
Section locals.
Variable results : Results.t.

Definition data : list R :=
  [ Results.total_boat_weight results;
    Results.total_buoyant_force results;
    Results.actual_safety_factor results * 100 ].

Definition ylim : option (R * R) :=
  match max data with
  | Some m => Some (0, m * 1.2)
  | None => None
  end.

Definition text_heights : option (list R) :=
  match max data with
  | Some m => Some (map (fun height => height + m * 0.02) data)
  | None => None
  end.
End locals.
End UpdateChart.

(** * Properties *)

Create HintDb design discriminated.

#[local] Hint Unfold
  CalculateDesign.payload CalculateDesign.safety_factor
  CalculateDesign.submersion_pct CalculateDesign.diameter_in
  CalculateDesign.diameter_ft CalculateDesign.length_ft
  CalculateDesign.cone_pct CalculateDesign.foam_density
  CalculateDesign.coating_weight CalculateDesign.water_density
  CalculateDesign.cross_beam_length CalculateDesign.num_cross_beams
  CalculateDesign.tube_weight CalculateDesign.radius_ft
  CalculateDesign.cone_length_ft CalculateDesign.cylinder_length_ft
  CalculateDesign.cylinder_volume CalculateDesign.cone_volume
  CalculateDesign.total_volume_per_pontoon CalculateDesign.total_volume_both
  CalculateDesign.cylinder_surface_area CalculateDesign.slant_height
  CalculateDesign.cone_surface_area CalculateDesign.end_cap_area
  CalculateDesign.total_surface_area_per_pontoon
  CalculateDesign.total_surface_area_both
  CalculateDesign.foam_weight_per_pontoon
  CalculateDesign.coating_weight_per_pontoon CalculateDesign.pontoon_weight
  CalculateDesign.total_tube_length CalculateDesign.frame_weight
  CalculateDesign.total_boat_weight
  CalculateDesign.submerged_volume_per_pontoon
  CalculateDesign.total_buoyant_force CalculateDesign.required_displacement
  CalculateDesign.draft_ft CalculateDesign.reserve_buoyancy : design.

(** ** Control flow of [calculate_design] *)

(** The only statement that can raise is the division by
    [total_boat_weight]; everything before it is plain arithmetic. *)
Lemma calculate_design_returns (p : Params.t) :
  CalculateDesign.total_boat_weight p <> 0 ->
  calculate_design p = Returns {|
    Results.total_boat_weight := CalculateDesign.total_boat_weight p;
    Results.total_buoyant_force := CalculateDesign.total_buoyant_force p;
    Results.actual_safety_factor :=
      CalculateDesign.total_buoyant_force p / CalculateDesign.total_boat_weight p;
    Results.reserve_buoyancy := CalculateDesign.reserve_buoyancy p;
    Results.draft_in := CalculateDesign.draft_ft p * 12;
    Results.volume_per_pontoon := CalculateDesign.total_volume_per_pontoon p;
    Results.cylinder_length := CalculateDesign.cylinder_length_ft p;
    Results.cone_length := CalculateDesign.cone_length_ft p;
    Results.pontoon_weight := CalculateDesign.pontoon_weight p;
    Results.frame_weight := CalculateDesign.frame_weight p;
    Results.total_volume_both := CalculateDesign.total_volume_both p;
    Results.total_surface_area_both := CalculateDesign.total_surface_area_both p;
    Results.total_tube_length := CalculateDesign.total_tube_length p;
    Results.status := CalculateDesign.status p
  |}.
Proof.
  intros Hw.
  unfold calculate_design, CalculateDesign.results,
    CalculateDesign.actual_safety_factor, float_div.
  destruct (Req_dec_T (CalculateDesign.total_boat_weight p) 0) as [E | _].
  - contradiction.
  - reflexivity.
Qed.

Lemma calculate_design_raises (p : Params.t) :
  CalculateDesign.total_boat_weight p = 0 ->
  calculate_design p = Raises ZeroDivisionError.
Proof.
  intros Hw.
  unfold calculate_design, CalculateDesign.results,
    CalculateDesign.actual_safety_factor, float_div.
  destruct (Req_dec_T (CalculateDesign.total_boat_weight p) 0) as [_ | N].
  - reflexivity.
  - contradiction.
Qed.

(** Case analysis on a call of [calculate_design]. *)
Ltac calculate_design_cases p :=
  destruct (Req_dec_T (CalculateDesign.total_boat_weight p) 0) as [?Hzero | ?Hnz];
  [ rewrite (calculate_design_raises p) by assumption
  | rewrite (calculate_design_returns p) by assumption ].

Lemma status_VIABLE (p : Params.t) :
  CalculateDesign.status p = VIABLE <->
  CalculateDesign.total_buoyant_force p >= CalculateDesign.required_displacement p.
Proof.
  unfold CalculateDesign.status.
  destruct (Rlt_dec _ _) as [L | G]; split; intros H.
  - discriminate H.
  - lra.
  - lra.
  - reflexivity.
Qed.

Lemma status_INSUFFICIENT_BUOYANCY (p : Params.t) :
  CalculateDesign.status p = INSUFFICIENT_BUOYANCY <->
  CalculateDesign.total_buoyant_force p < CalculateDesign.required_displacement p.
Proof.
  unfold CalculateDesign.status.
  destruct (Rlt_dec _ _) as [L | G]; split; intros H.
  - exact L.
  - reflexivity.
  - discriminate H.
  - contradiction.
Qed.

(** C1. Whenever [calculate_design] returns, the status is VIABLE exactly
    when the total buoyant force is at least the total boat weight times
    the safety factor, and INSUFFICIENT BUOYANCY exactly when it is below;
    the only inputs on which it does not return are those of zero total
    boat weight, where the division raises. *)
Theorem status_consistency (p : Params.t) :
  match calculate_design p with
  | Returns r =>
      (Results.status r = VIABLE <->
       Results.total_buoyant_force r
         >= Results.total_boat_weight r * Params.safety_factor p)
      /\ (Results.status r = INSUFFICIENT_BUOYANCY <->
          Results.total_buoyant_force r
            < Results.total_boat_weight r * Params.safety_factor p)
  | Raises e => e = ZeroDivisionError /\ CalculateDesign.total_boat_weight p = 0
  end.
Proof.
  calculate_design_cases p.
  - split; [reflexivity | assumption].
  - cbn [Results.status Results.total_buoyant_force Results.total_boat_weight].
    split.
    + apply status_VIABLE.
    + apply status_INSUFFICIENT_BUOYANCY.
Qed.

(** ** The zero-weight edge case *)

(** C5, as the code has it.  Nothing guards the division: an input
    whose total boat weight is zero makes [calculate_design] raise
    [ZeroDivisionError] out of the division itself.  No value is returned
    to the caller, neither an error value nor a result record, hence no
    NaN and no infinity. *)
Theorem zero_weight_raises (p : Params.t) :
  CalculateDesign.total_boat_weight p = 0 ->
  calculate_design p = Raises ZeroDivisionError
  /\ forall r, calculate_design p <> Returns r.
Proof.
  intros Hw. rewrite (calculate_design_raises p Hw).
  split; [reflexivity | intros r; discriminate].
Qed.

Lemma weightless_total_boat_weight :
  CalculateDesign.total_boat_weight weightless = 0.
Proof.
  autounfold with design. cbn [weightless Params.payload Params.safety_factor
    Params.submersion_pct Params.diameter_in Params.length_ft Params.cone_pct
    Params.foam_density Params.coating_weight Params.water_density
    Params.cross_beam_length Params.num_cross_beams Params.tube_weight].
  lra.
Qed.

Lemma zero_weight_raises_witness :
  CalculateDesign.total_boat_weight weightless = 0
  /\ calculate_design weightless = Raises ZeroDivisionError.
Proof.
  split.
  - exact weightless_total_boat_weight.
  - exact (proj1 (zero_weight_raises weightless weightless_total_boat_weight)).
Defined.

(** ** Draft *)

(** C9. The draft that the result exposes is in inches: it is the
    internal draft in feet times twelve, that is the diameter in inches
    times the submersion fraction; the result has a ['draft_in'] key and
    no key for the draft in feet. *)
Theorem draft_in_inches (p : Params.t) :
  match calculate_design p with
  | Returns r =>
      Results.draft_in r = CalculateDesign.draft_ft p * 12
      /\ Results.draft_in r
         = Params.diameter_in p * (Params.submersion_pct p / 100)
      /\ In "draft_in"%string (Results.keys r)
      /\ ~ In "draft_ft"%string (Results.keys r)
  | Raises e => e = ZeroDivisionError /\ CalculateDesign.total_boat_weight p = 0
  end.
Proof.
  calculate_design_cases p.
  - split; [reflexivity | assumption].
  - cbn [Results.draft_in]. repeat split.
    + autounfold with design. field.
    + cbn. tauto.
    + cbn. intros H.
      repeat (destruct H as [H | H]; [discriminate H |]).
      exact H.
Qed.

(** ** The literal scenario *)

(** Unfold the locals and read the fields of a concrete [params]. *)
Ltac locals :=
  autounfold with design;
  cbn [Params.payload Params.safety_factor Params.submersion_pct
       Params.diameter_in Params.length_ft Params.cone_pct
       Params.foam_density Params.coating_weight Params.water_density
       Params.cross_beam_length Params.num_cross_beams Params.tube_weight].

Lemma literal_scenario_weight_positive :
  0 < CalculateDesign.total_boat_weight literal_scenario.
Proof.
  unfold literal_scenario. locals.
  pose proof (sqrt_pos ((12 / 12 / 2) ^ 2 + (6 * (25 / 100)) ^ 2)) as Hs.
  lra.
Qed.

(** C2. On the literal scenario the geometry is: diameter 1 ft, radius
    0.5 ft, cone length 1.5 ft, cylinder length 4.5 ft, cylinder volume
    pi * 0.25 * 4.5 (3.534 to three decimals), cone volume
    (1/3) * pi * 0.25 * 1.5 (0.3927 to four decimals), volume per pontoon
    3.927 to three decimals, and the call returns a result that carries
    these lengths and this volume. *)
Theorem literal_scenario_geometry :
  CalculateDesign.diameter_ft literal_scenario = 1.0
  /\ CalculateDesign.radius_ft literal_scenario = 0.5
  /\ CalculateDesign.cone_length_ft literal_scenario = 1.5
  /\ CalculateDesign.cylinder_length_ft literal_scenario = 4.5
  /\ CalculateDesign.cylinder_volume literal_scenario
     = 3.141592653589793 * 0.25 * 4.5
  /\ Rabs (CalculateDesign.cylinder_volume literal_scenario - 3.534) < 0.0005
  /\ CalculateDesign.cone_volume literal_scenario
     = (1 / 3) * 3.141592653589793 * 0.25 * 1.5
  /\ Rabs (CalculateDesign.cone_volume literal_scenario - 0.3927) < 0.00005
  /\ Rabs (CalculateDesign.total_volume_per_pontoon literal_scenario - 3.927)
     < 0.0005
  /\ exists r,
       calculate_design literal_scenario = Returns r
       /\ Results.cone_length r = 1.5
       /\ Results.cylinder_length r = 4.5
       /\ Results.volume_per_pontoon r
          = 3.141592653589793 * 0.25 * 4.5
            + (1 / 3) * 3.141592653589793 * 0.25 * 1.5.
Proof.
  repeat split;
    try (unfold literal_scenario; locals; lra);
    try (apply Rabs_def1; unfold literal_scenario; locals; lra).
  eexists. split.
  - apply calculate_design_returns.
    pose proof literal_scenario_weight_positive. lra.
  - cbn [Results.cone_length Results.cylinder_length Results.volume_per_pontoon].
    repeat split; unfold literal_scenario; locals; lra.
Qed.

(** ** The degenerate cone *)

Lemma slant_height_no_cone (p : Params.t) :
  Params.cone_pct p = 0 ->
  CalculateDesign.slant_height p = Rabs (CalculateDesign.radius_ft p).
Proof.
  intros Hc. unfold CalculateDesign.slant_height.
  replace (CalculateDesign.cone_length_ft p) with 0
    by (locals; rewrite Hc; lra).
  replace (CalculateDesign.radius_ft p ^ 2 + 0 ^ 2)
    with (Rsqr (CalculateDesign.radius_ft p)) by (unfold Rsqr; ring).
  apply sqrt_Rsqr_abs.
Qed.

(** C4, as the code has it.  With no cone the cone volume is zero, the
    slant height is the absolute value of the radius, and the cone's
    lateral area is pi * r * |r|; for a non-negative diameter that is one
    more end cap, so the surface of a pontoon is the cylinder's lateral
    area plus two end caps: a closed cylinder. *)
Theorem degenerate_cone (p : Params.t) :
  Params.cone_pct p = 0 ->
  CalculateDesign.cone_volume p = 0
  /\ CalculateDesign.cone_surface_area p
     = 3.141592653589793 * CalculateDesign.radius_ft p
       * Rabs (CalculateDesign.radius_ft p)
  /\ (0 <= Params.diameter_in p ->
      CalculateDesign.cone_surface_area p = CalculateDesign.end_cap_area p
      /\ CalculateDesign.total_surface_area_per_pontoon p
         = CalculateDesign.cylinder_surface_area p
           + 2 * CalculateDesign.end_cap_area p).
Proof.
  intros Hc.
  assert (Ha : CalculateDesign.cone_surface_area p
               = 3.141592653589793 * CalculateDesign.radius_ft p
                 * Rabs (CalculateDesign.radius_ft p)).
  { unfold CalculateDesign.cone_surface_area.
    now rewrite (slant_height_no_cone p Hc). }
  split; [| split].
  - locals. rewrite Hc. lra.
  - exact Ha.
  - intros Hd.
    assert (Hr : 0 <= CalculateDesign.radius_ft p) by (locals; lra).
    assert (He : CalculateDesign.cone_surface_area p
                 = CalculateDesign.end_cap_area p).
    { rewrite Ha, (Rabs_pos_eq _ Hr).
      unfold CalculateDesign.end_cap_area. ring. }
    split; [exact He |].
    unfold CalculateDesign.total_surface_area_per_pontoon.
    rewrite He. ring.
Qed.

Lemma degenerate_cone_witness :
  Params.cone_pct no_cone = 0
  /\ CalculateDesign.cone_volume no_cone = 0
  /\ CalculateDesign.total_surface_area_per_pontoon no_cone
     = CalculateDesign.cylinder_surface_area no_cone
       + 2 * CalculateDesign.end_cap_area no_cone.
Proof.
  assert (Hc : Params.cone_pct no_cone = 0) by reflexivity.
  assert (Hd : 0 <= Params.diameter_in no_cone) by (cbn; lra).
  destruct (degenerate_cone no_cone Hc) as [Hv [_ Hs]].
  destruct (Hs Hd) as [_ Ht].
  exact (conj Hc (conj Hv Ht)).
Defined.

(** C4, as the specification words it, fails: on a 12 inch pontoon
    without a cone the cone's lateral area is pi/4 square feet, not zero,
    and the surface is not the cylinder's lateral area plus one end cap. *)
Lemma degenerate_cone_area_not_zero :
  Params.cone_pct no_cone = 0
  /\ CalculateDesign.cone_surface_area no_cone = 3.141592653589793 * 0.25
  /\ CalculateDesign.cone_surface_area no_cone <> 0
  /\ CalculateDesign.total_surface_area_per_pontoon no_cone
     <> CalculateDesign.cylinder_surface_area no_cone
        + CalculateDesign.end_cap_area no_cone.
Proof.
  assert (Hc : Params.cone_pct no_cone = 0) by reflexivity.
  assert (Ha : CalculateDesign.cone_surface_area no_cone
               = 3.141592653589793 * 0.25).
  { unfold CalculateDesign.cone_surface_area.
    rewrite (slant_height_no_cone no_cone Hc).
    replace (CalculateDesign.radius_ft no_cone) with (1 / 2)
      by (unfold no_cone; locals; lra).
    rewrite Rabs_pos_eq by lra. lra. }
  repeat split.
  - exact Ha.
  - rewrite Ha. lra.
  - unfold CalculateDesign.total_surface_area_per_pontoon.
    rewrite Ha. lra.
Qed.

(** ** Facts about the runtime *)

(** [round] gives the nearest integer. *)
Lemma round_half_even_nearest (x : R) (n : Z) :
  IZR n - 1 / 2 < x < IZR n + 1 / 2 -> round_half_even x = n.
Proof.
  intros [Hlo Hhi]. unfold round_half_even.
  destruct (Rle_lt_dec (IZR n) x) as [Hge | Hlt].
  - rewrite (Zfloor_eq n x) by lra.
    destruct (Rlt_dec (x - IZR n) (1 / 2)) as [_ | N]; [reflexivity | lra].
  - rewrite (Zfloor_eq (n - 1) x) by (rewrite minus_IZR; lra).
    rewrite minus_IZR.
    destruct (Rlt_dec (x - (IZR n - 1)) (1 / 2)) as [L | _]; [lra |].
    destruct (Rlt_dec (1 / 2) (x - (IZR n - 1))) as [_ | N]; [lia | lra].
Qed.

Lemma Rabs_le_bounds (a b : R) : Rabs a <= b -> - b <= a <= b.
Proof. unfold Rabs. destruct (Rcase_abs a); lra. Qed.

Lemma round_half_even_error (x : R) :
  Rabs (IZR (round_half_even x) - x) <= 1 / 2.
Proof.
  unfold round_half_even.
  pose proof (Zfloor_bound x) as [Hlo Hhi].
  destruct (Rlt_dec (x - IZR (Zfloor x)) (1 / 2)) as [L | NL].
  - apply Rabs_le. lra.
  - destruct (Rlt_dec (1 / 2) (x - IZR (Zfloor x))) as [G | NG].
    + rewrite plus_IZR. apply Rabs_le. lra.
    + destruct (Z.even (Zfloor x)); [| rewrite plus_IZR]; apply Rabs_le; lra.
Qed.

Lemma Zfloor_third : Zfloor (1 / 3) = 0%Z.
Proof. apply Zfloor_eq. lra. Qed.

(** The three uses of [**] in the source.  [x ** 2] is the square and,
    on a sum of squares, [s ** 0.5] is the square root: this is what
    [CalculateDesign] writes as [x ^ 2] and [sqrt s]. *)
Lemma float_pow_2 (x : R) : float_pow x 2 = Returns (Float (x ^ 2)).
Proof.
  unfold float_pow.
  destruct (Req_dec_T 2 0) as [E | _]; [lra |].
  destruct (Req_dec_T x 0) as [E | N].
  - destruct (Rlt_dec 2 0) as [L | _]; [lra |].
    subst x. do 2 f_equal. ring.
  - destruct (Rlt_dec 0 x) as [P | NP].
    + do 2 f_equal. rewrite <- (Rpower_pow 2 x P). f_equal; simpl; ring.
    + rewrite (ZfloorZ 2).
      destruct (Req_dec_T 2 2) as [_ | N2]; [| lra].
      reflexivity.
Qed.

Lemma float_pow_half (s : R) :
  0 <= s -> float_pow s 0.5 = Returns (Float (sqrt s)).
Proof.
  intros Hs. unfold float_pow.
  destruct (Req_dec_T 0.5 0) as [E | _]; [lra |].
  destruct (Req_dec_T s 0) as [E | N].
  - destruct (Rlt_dec 0.5 0) as [L | _]; [lra |].
    subst s. now rewrite sqrt_0.
  - destruct (Rlt_dec 0 s) as [P | NP]; [| lra].
    do 2 f_equal. rewrite <- (Rpower_sqrt s P). f_equal. lra.
Qed.

Lemma slant_height_float_pow (p : Params.t) :
  (r2 <- float_pow (CalculateDesign.radius_ft p) 2 ;;
   h2 <- float_pow (CalculateDesign.cone_length_ft p) 2 ;;
   match r2, h2 with
   | Float a, Float b => float_pow (a + b) 0.5
   | _, _ => Raises TypeError
   end)
  = Returns (Float (CalculateDesign.slant_height p)).
Proof.
  rewrite !float_pow_2. cbn [bind].
  apply float_pow_half.
  pose proof (pow2_ge_0 (CalculateDesign.radius_ft p)).
  pose proof (pow2_ge_0 (CalculateDesign.cone_length_ft p)).
  lra.
Qed.

(** [x ** (1.0 / 3.0)]: the real cube root of a non-negative [x], a
    complex number for a negative one. *)
Lemma Rpower_third_cube (x : R) : 0 < x -> Rpower x (1 / 3) ^ 3 = x.
Proof.
  intros Hx.
  rewrite <- (Rpower_pow 3 (Rpower x (1 / 3))) by apply exp_pos.
  rewrite Rpower_mult.
  replace (1 / 3 * INR 3) with 1 by (simpl; lra).
  now apply Rpower_1.
Qed.

Lemma float_pow_third (x : R) :
  0 <= x ->
  exists D, 0 <= D /\ D ^ 3 = x /\ float_pow x (1 / 3) = Returns (Float D).
Proof.
  intros Hx. unfold float_pow.
  destruct (Req_dec_T (1 / 3) 0) as [E | _]; [lra |].
  destruct (Req_dec_T x 0) as [E | N].
  - destruct (Rlt_dec (1 / 3) 0) as [L | _]; [lra |].
    exists 0. subst x. repeat split; [lra | ring].
  - destruct (Rlt_dec 0 x) as [P | NP]; [| lra].
    exists (Rpower x (1 / 3)). repeat split.
    + left. apply exp_pos.
    + now apply Rpower_third_cube.
Qed.

Lemma float_pow_third_negative (x : R) :
  x < 0 -> exists re im, float_pow x (1 / 3) = Returns (Complex re im).
Proof.
  intros Hx. unfold float_pow.
  destruct (Req_dec_T (1 / 3) 0) as [E | _]; [lra |].
  destruct (Req_dec_T x 0) as [E | _]; [lra |].
  destruct (Rlt_dec 0 x) as [P | _]; [lra |].
  rewrite Zfloor_third.
  destruct (Req_dec_T 0 (1 / 3)) as [E | _]; [lra |].
  eauto.
Qed.

(** Cubing is strictly increasing on the non-negative reals, so a cube
    root is located by cubing the bounds. *)
Lemma cube_lt_reg (a b : R) : 0 <= a -> 0 <= b -> a ^ 3 < b ^ 3 -> a < b.
Proof.
  intros Ha Hb H.
  destruct (Rlt_le_dec a b) as [L | G]; [exact L | exfalso].
  assert (b ^ 3 <= a ^ 3) by (apply pow_incr; lra).
  lra.
Qed.

Lemma cube_lt_compat (a b : R) : 0 <= a -> a < b -> a ^ 3 < b ^ 3.
Proof.
  intros Ha Hab.
  assert (Hd : b ^ 3 - a ^ 3 = (b - a) * (a * a + a * b + b * b)) by ring.
  assert (0 < (b - a) * (a * a + a * b + b * b)).
  { apply Rmult_lt_0_compat; nra. }
  lra.
Qed.

Lemma cube_inj (a b : R) : 0 <= a -> 0 <= b -> a ^ 3 = b ^ 3 -> a = b.
Proof.
  intros Ha Hb H.
  destruct (Rtotal_order a b) as [L | [E | G]]; [exfalso | exact E | exfalso].
  - pose proof (cube_lt_compat a b Ha L). lra.
  - pose proof (cube_lt_compat b a Hb G). lra.
Qed.

(** ** Control flow of [optimize_design] *)

Ltac optimize_locals :=
  unfold optimize_design, OptimizeDesign.result, OptimizeDesign.diameter_in,
    OptimizeDesign.length_ft, OptimizeDesign.diameter_ft,
    OptimizeDesign.required_vol_per_pontoon, OptimizeDesign.required_disp,
    OptimizeDesign.estimated_weight, OptimizeDesign.payload,
    OptimizeDesign.safety_factor, OptimizeDesign.submersion_pct,
    OptimizeDesign.water_density, float_div.

(** The division raises exactly when the water density times the
    submersion fraction is zero. *)
Lemma optimize_design_zero_division (p : Params.t) :
  Params.water_density p * (Params.submersion_pct p / 100) = 0 ->
  optimize_design p = Raises ZeroDivisionError.
Proof.
  intros Hz. optimize_locals.
  destruct (Req_dec_T _ 0) as [_ | N]; [reflexivity | contradiction].
Qed.

(** Otherwise a non-negative radicand has a real cube root [D], and the
    call returns [D] in inches rounded to an integer together with four
    times [D] rounded to two decimals. *)
Lemma optimize_design_returns (p : Params.t) :
  Params.water_density p * (Params.submersion_pct p / 100) <> 0 ->
  0 <= radicand p ->
  exists D,
    0 <= D /\ D ^ 3 = radicand p
    /\ optimize_design p
       = Returns (round_half_even (D * 12),
                  IZR (round_half_even (D * 4 * 10 ^ 2)) / 10 ^ 2).
Proof.
  intros Hnz Hx.
  destruct (float_pow_third (radicand p) Hx) as [D [HD [Hcube Hpow]]].
  exists D. split; [exact HD | split; [exact Hcube |]].
  optimize_locals.
  destruct (Req_dec_T _ 0) as [E | _]; [contradiction |].
  cbn [bind]. fold (radicand p). rewrite Hpow. reflexivity.
Qed.

(** A negative radicand has a complex cube root, which [round] refuses. *)
Lemma optimize_design_type_error (p : Params.t) :
  Params.water_density p * (Params.submersion_pct p / 100) <> 0 ->
  radicand p < 0 ->
  optimize_design p = Raises TypeError.
Proof.
  intros Hnz Hx.
  destruct (float_pow_third_negative (radicand p) Hx) as [re [im Hpow]].
  optimize_locals.
  destruct (Req_dec_T _ 0) as [E | _]; [contradiction |].
  cbn [bind]. fold (radicand p). rewrite Hpow. reflexivity.
Qed.

(** The result on given bounds of the cube root. *)
Lemma optimize_design_value (p : Params.t) (new_dia cents : Z) :
  Params.water_density p * (Params.submersion_pct p / 100) <> 0 ->
  0 <= IZR new_dia - 1 / 2 ->
  0 <= IZR cents - 1 / 2 ->
  ((IZR new_dia - 1 / 2) / 12) ^ 3 < radicand p
    < ((IZR new_dia + 1 / 2) / 12) ^ 3 ->
  ((IZR cents - 1 / 2) / 400) ^ 3 < radicand p
    < ((IZR cents + 1 / 2) / 400) ^ 3 ->
  optimize_design p = Returns (new_dia, IZR cents / 100).
Proof.
  intros Hnz Hd0 Hc0 [Hd1 Hd2] [Hc1 Hc2].
  assert (Hx : 0 <= radicand p).
  { assert (0 <= ((IZR new_dia - 1 / 2) / 12) ^ 3)
      by (apply pow_le; lra).
    lra. }
  destruct (optimize_design_returns p Hnz Hx) as [D [HD [Hcube ->]]].
  rewrite <- Hcube in Hd1, Hd2, Hc1, Hc2.
  apply cube_lt_reg in Hd1; [| lra | exact HD].
  apply cube_lt_reg in Hd2; [| exact HD | lra].
  apply cube_lt_reg in Hc1; [| lra | exact HD].
  apply cube_lt_reg in Hc2; [| exact HD | lra].
  rewrite (round_half_even_nearest (D * 12) new_dia) by lra.
  rewrite (round_half_even_nearest (D * 4 * 10 ^ 2) cents) by lra.
  do 2 f_equal. lra.
Qed.

(** ** The optimizer on the mission of the literal scenario *)

Lemma optimize_design_mission (d l : R) :
  optimize_design (mission d l) = Returns (12%Z, 4.06).
Proof.
  replace 4.06 with (IZR 406 / 100) by lra.
  apply optimize_design_value;
    unfold radicand, math_pi, mission; locals; lra.
Qed.

Lemma mission_resized_weight (d l : R) :
  124 < CalculateDesign.total_boat_weight (resize (mission d l) 12 4.06).
Proof.
  unfold resize, mission. locals.
  pose proof (sqrt_pos ((12 / 12 / 2) ^ 2 + (4.06 * (25 / 100)) ^ 2)) as Hs.
  lra.
Qed.

Lemma mission_resized_buoyancy (d l : R) :
  CalculateDesign.total_buoyant_force (resize (mission d l) 12 4.06) < 205.
Proof. unfold resize, mission. locals. lra. Qed.

Lemma mission_resized_status (d l : R) :
  CalculateDesign.status (resize (mission d l) 12 4.06) = INSUFFICIENT_BUOYANCY.
Proof.
  apply status_INSUFFICIENT_BUOYANCY.
  pose proof (mission_resized_weight d l) as Hw.
  pose proof (mission_resized_buoyancy d l) as Hb.
  unfold CalculateDesign.required_displacement.
  replace (CalculateDesign.safety_factor (resize (mission d l) 12 4.06))
    with 1.8 by reflexivity.
  lra.
Qed.

(** C3, as the code has it.  On the mission payload 100 lb, safety
    factor 1.8, submersion 60 percent, water density 64 lb per cubic foot
    the optimizer returns 12 inches by 4.06 feet, and the design so
    resized, the other fields at their defaults, is evaluated with about
    204 lb of buoyant force against more than 223 lb of required
    displacement: its status is INSUFFICIENT BUOYANCY. *)
Theorem optimizer_round_trip (d l : R) :
  optimize_design (mission d l) = Returns (12%Z, 4.06)
  /\ exists r,
       on_optimize (mission d l) = Returns r
       /\ calculate_design (resize (mission d l) 12 4.06) = Returns r
       /\ Results.total_buoyant_force r < 205
       /\ 223 < Results.total_boat_weight r * 1.8
       /\ Results.status r = INSUFFICIENT_BUOYANCY.
Proof.
  split; [apply optimize_design_mission |].
  pose proof (mission_resized_weight d l) as Hw.
  eexists. split; [| split].
  - unfold on_optimize. rewrite optimize_design_mission. cbn [bind fst snd].
    apply calculate_design_returns. lra.
  - apply calculate_design_returns. lra.
  - cbn [Results.total_buoyant_force Results.total_boat_weight Results.status].
    split; [apply mission_resized_buoyancy |].
    split; [lra | apply mission_resized_status].
Qed.

(** C3, as the specification words it, fails on the literal scenario:
    the pair that the optimizer returns does not evaluate to VIABLE. *)
Lemma optimizer_round_trip_not_viable :
  ~ exists new_dia new_len r,
      optimize_design literal_scenario = Returns (new_dia, new_len)
      /\ calculate_design (resize literal_scenario new_dia new_len) = Returns r
      /\ Results.status r = VIABLE.
Proof.
  intros [new_dia [new_len [r [Ho [Hc Hs]]]]].
  change literal_scenario with (mission 12 6) in Ho, Hc.
  rewrite optimize_design_mission in Ho.
  injection Ho as <- <-.
  rewrite calculate_design_returns in Hc
    by (pose proof (mission_resized_weight 12 6); lra).
  injection Hc as <-. cbn [Results.status] in Hs.
  rewrite mission_resized_status in Hs. discriminate Hs.
Qed.

(** ** What [optimize_design] checks, and what it returns *)

Lemma radicand_no_payload (p : Params.t) :
  Params.payload p = 0 -> radicand p = 0.
Proof. intros H. unfold radicand. rewrite H. unfold Rdiv. ring. Qed.

Lemma optimize_design_no_payload (p : Params.t) :
  Params.payload p = 0 ->
  Params.water_density p * (Params.submersion_pct p / 100) <> 0 ->
  optimize_design p = Returns (0%Z, 0).
Proof.
  intros Hp Hnz.
  pose proof (radicand_no_payload p Hp) as Hx.
  destruct (optimize_design_returns p Hnz) as [D [HD [Hcube ->]]]; [lra |].
  assert (D = 0).
  { apply cube_inj; [exact HD | lra |]. rewrite Hcube, Hx. ring. }
  subst D.
  rewrite (round_half_even_nearest (0 * 12) 0) by lra.
  rewrite (round_half_even_nearest (0 * 4 * 10 ^ 2) 0) by lra.
  do 2 f_equal. lra.
Qed.

(** C6, as the code has it.  [optimize_design] raises
    [ZeroDivisionError] when the water density times the submersion
    fraction is zero, and validates nothing: whenever that product is not
    zero and the required volume is not negative it returns a size, and a
    zero payload gives the size 0 inches by 0.0 feet. *)
Theorem optimize_design_validation (p : Params.t) :
  (Params.water_density p * (Params.submersion_pct p / 100) = 0 ->
   optimize_design p = Raises ZeroDivisionError)
  /\ (Params.water_density p * (Params.submersion_pct p / 100) <> 0 ->
      0 <= radicand p ->
      exists size, optimize_design p = Returns size)
  /\ (Params.water_density p * (Params.submersion_pct p / 100) <> 0 ->
      Params.payload p = 0 ->
      optimize_design p = Returns (0%Z, 0)).
Proof.
  split; [| split].
  - apply optimize_design_zero_division.
  - intros Hnz Hx.
    destruct (optimize_design_returns p Hnz Hx) as [D [_ [_ ->]]]. eauto.
  - intros Hnz Hp. now apply optimize_design_no_payload.
Qed.

Lemma no_payload_divisor :
  Params.water_density no_payload * (Params.submersion_pct no_payload / 100)
  <> 0.
Proof. unfold no_payload. locals. lra. Qed.

Lemma optimize_design_validation_witness :
  optimize_design no_payload = Returns (0%Z, 0).
Proof.
  exact (proj2 (proj2 (optimize_design_validation no_payload))
           no_payload_divisor eq_refl).
Defined.

(** C6, as the specification words it, fails: a zero payload is not
    rejected, a size is computed and returned. *)
Lemma optimize_design_accepts_no_payload :
  Params.payload no_payload <= 0
  /\ optimize_design no_payload = Returns (0%Z, 0)
  /\ forall e, optimize_design no_payload <> Raises e.
Proof.
  assert (H : optimize_design no_payload = Returns (0%Z, 0)).
  { apply optimize_design_no_payload;
      [reflexivity | exact no_payload_divisor]. }
  split; [cbn; lra | split; [exact H |]].
  intros e. rewrite H. discriminate.
Qed.

Lemma radicand_nonneg (p : Params.t) :
  0 <= Params.payload p ->
  0 < Params.safety_factor p ->
  0 < Params.submersion_pct p ->
  0 < Params.water_density p ->
  Params.water_density p * (Params.submersion_pct p / 100) <> 0
  /\ 0 <= radicand p.
Proof.
  intros Hp Hs Hsub Hw.
  assert (Hd : 0 < Params.water_density p * (Params.submersion_pct p / 100)).
  { apply Rmult_lt_0_compat; lra. }
  split; [lra |].
  unfold radicand, math_pi.
  apply Rmult_le_pos; [| lra].
  apply Rmult_le_pos; [| left; now apply Rinv_0_lt_compat].
  assert (0 <= Params.payload p * 1.4 * Params.safety_factor p)
    by (apply Rmult_le_pos; lra).
  lra.
Qed.

(** C7, as the code has it.  For a payload that is not negative and a
    positive safety factor, submersion percentage and water density, let
    [D] be the real cube root of
    (payload * 1.4 * safetyFactor / 2) / (waterDensity * submersionPct / 100) / pi.
    Then [optimize_design] returns the integer nearest to [12 * D] and
    [4 * D] rounded to two decimals. *)
Theorem optimize_design_formula (p : Params.t) :
  0 <= Params.payload p ->
  0 < Params.safety_factor p ->
  0 < Params.submersion_pct p ->
  0 < Params.water_density p ->
  exists (D : R) (new_dia : Z) (new_len : R),
    0 <= D
    /\ D ^ 3
       = Params.payload p * 1.4 * Params.safety_factor p / 2
         / (Params.water_density p * (Params.submersion_pct p / 100))
         / math_pi
    /\ optimize_design p = Returns (new_dia, new_len)
    /\ new_dia = round_half_even (12 * D)
    /\ Rabs (IZR new_dia - 12 * D) <= 1 / 2
    /\ new_len = IZR (round_half_even (4 * D * 100)) / 100
    /\ Rabs (new_len - 4 * D) <= 0.005.
Proof.
  intros Hp Hs Hsub Hw.
  destruct (radicand_nonneg p Hp Hs Hsub Hw) as [Hnz Hx].
  destruct (optimize_design_returns p Hnz Hx) as [D [HD [Hcube Hr]]].
  exists D, (round_half_even (12 * D)),
    (IZR (round_half_even (4 * D * 100)) / 100).
  split; [exact HD | split; [exact Hcube | split]].
  - rewrite Hr.
    replace (D * 12) with (12 * D) by ring.
    replace (D * 4 * 10 ^ 2) with (4 * D * 100) by ring.
    replace (10 ^ 2) with 100 by ring.
    reflexivity.
  - split; [reflexivity |].
    split; [apply round_half_even_error |].
    split; [reflexivity |].
    pose proof (round_half_even_error (4 * D * 100)) as He.
    apply Rabs_le. apply Rabs_le_bounds in He. lra.
Qed.

Lemma optimize_design_formula_witness :
  exists (D : R) (new_dia : Z) (new_len : R),
    D ^ 3 = radicand literal_scenario
    /\ optimize_design literal_scenario = Returns (new_dia, new_len)
    /\ new_dia = round_half_even (12 * D)
    /\ new_len = IZR (round_half_even (4 * D * 100)) / 100.
Proof.
  destruct (optimize_design_formula literal_scenario)
    as [D [new_dia [new_len [_ [H1 [H2 [H3 [_ [H4 _]]]]]]]]];
    try (cbn; lra).
  exists D, new_dia, new_len. exact (conj H1 (conj H2 (conj H3 H4))).
Defined.

(** C7, as the specification words it, fails for a negative payload:
    the cube root is then complex and [round] raises [TypeError]; no size
    is returned. *)
Lemma optimize_design_negative_payload :
  0 < Params.safety_factor negative_payload
  /\ 0 < Params.submersion_pct negative_payload
  /\ 0 < Params.water_density negative_payload
  /\ optimize_design negative_payload = Raises TypeError
  /\ forall size, optimize_design negative_payload <> Returns size.
Proof.
  assert (H : optimize_design negative_payload = Raises TypeError).
  { apply optimize_design_type_error;
      unfold radicand, math_pi, negative_payload; locals; lra. }
  repeat split; try (cbn; lra); [exact H |].
  intros size. rewrite H. discriminate.
Qed.

(** C10. The length that [optimize_design] returns is four times the
    unrounded diameter in feet, rounded to two decimals; the diameter is
    rounded to a whole inch on its own.  The returned pair therefore need
    not satisfy lengthFt = 4 * (diameterIn / 12): on the literal scenario
    it is 12 inches by 4.06 feet, not by 4 feet. *)
Theorem length_from_unrounded_diameter :
  (forall p : Params.t,
     Params.water_density p * (Params.submersion_pct p / 100) <> 0 ->
     0 <= radicand p ->
     exists D,
       0 <= D /\ D ^ 3 = radicand p
       /\ optimize_design p
          = Returns (round_half_even (D * 12),
                     IZR (round_half_even (D * 4 * 10 ^ 2)) / 10 ^ 2))
  /\ exists new_dia new_len,
       optimize_design literal_scenario = Returns (new_dia, new_len)
       /\ new_len <> 4 * (IZR new_dia / 12).
Proof.
  split; [exact optimize_design_returns |].
  exists 12%Z, 4.06. split.
  - exact (optimize_design_mission 12 6).
  - lra.
Qed.

Lemma length_from_unrounded_diameter_witness :
  exists D,
    D ^ 3 = radicand literal_scenario
    /\ optimize_design literal_scenario
       = Returns (round_half_even (D * 12),
                  IZR (round_half_even (D * 4 * 10 ^ 2)) / 10 ^ 2).
Proof.
  destruct (proj1 length_from_unrounded_diameter literal_scenario)
    as [D [_ [H1 H2]]].
  - unfold literal_scenario. locals. lra.
  - unfold radicand, math_pi, literal_scenario. locals. lra.
  - exists D. exact (conj H1 H2).
Defined.

(** ** Monotonicity in the diameter *)

Section asf_core.
Variables r1 r2 h : R.
Hypothesis r1_pos : 0 < r1.
Hypothesis r1_lt_r2 : r1 < r2.

Local Abbreviation S1 := (sqrt (r1 ^ 2 + h ^ 2)).
Local Abbreviation S2 := (sqrt (r2 ^ 2 + h ^ 2)).

Lemma slant_facts :
  0 <= S1 /\ 0 <= S2
  /\ S1 * S1 = r1 ^ 2 + h ^ 2 /\ S2 * S2 = r2 ^ 2 + h ^ 2.
Proof.
  pose proof (pow2_ge_0 r1). pose proof (pow2_ge_0 r2).
  pose proof (pow2_ge_0 h).
  repeat split; try apply sqrt_pos; apply sqrt_sqrt; lra.
Qed.

(** The slant height grows more slowly than the radius. *)
Lemma slant_cross_le : r1 * S2 <= r2 * S1.
Proof.
  destruct slant_facts as [H1 [H2 [E1 E2]]].
  destruct (Rle_lt_dec (r1 * S2) (r2 * S1)) as [L | G]; [exact L | exfalso].
  assert (Hsq : (r2 * S1) * (r2 * S1) < (r1 * S2) * (r1 * S2)).
  { apply Rmult_le_0_lt_compat; try exact G; apply Rmult_le_pos; lra. }
  replace ((r2 * S1) * (r2 * S1)) with (r2 ^ 2 * (S1 * S1)) in Hsq by ring.
  replace ((r1 * S2) * (r1 * S2)) with (r1 ^ 2 * (S2 * S2)) in Hsq by ring.
  rewrite E1, E2 in Hsq.
  assert (0 <= (r2 ^ 2 - r1 ^ 2) * h ^ 2).
  { apply Rmult_le_pos; [nra | apply pow2_ge_0]. }
  lra.
Qed.

Lemma slant_cross_lt : h <> 0 -> r1 * S2 < r2 * S1.
Proof.
  intros Hh.
  destruct slant_facts as [H1 [H2 [E1 E2]]].
  destruct (Rlt_le_dec (r1 * S2) (r2 * S1)) as [L | G]; [exact L | exfalso].
  assert (Hsq : (r2 * S1) * (r2 * S1) <= (r1 * S2) * (r1 * S2)).
  { apply Rmult_le_compat; try exact G; apply Rmult_le_pos; lra. }
  replace ((r2 * S1) * (r2 * S1)) with (r2 ^ 2 * (S1 * S1)) in Hsq by ring.
  replace ((r1 * S2) * (r1 * S2)) with (r1 ^ 2 * (S2 * S2)) in Hsq by ring.
  rewrite E1, E2 in Hsq.
  assert (0 < (r2 ^ 2 - r1 ^ 2) * h ^ 2).
  { apply Rmult_lt_0_compat; [nra |].
    assert (0 <= h ^ 2) by apply pow2_ge_0.
    assert (h ^ 2 <> 0) by (apply pow_nonzero; exact Hh).
    lra. }
  lra.
Qed.
End asf_core.

(** The total boat weight as a function of the radius: [W0] is payload
    plus frame, [Lc] the cylinder length, [h] the cone length. *)
Section weight_core.
Variables P W0 Lc h foam coat : R.
Hypothesis P_pos : 0 < P.
Hypothesis W0_nonneg : 0 <= W0.
Hypothesis Lc_nonneg : 0 <= Lc.
Hypothesis h_nonneg : 0 <= h.
Hypothesis length_pos : 0 < Lc + h.
Hypothesis foam_nonneg : 0 <= foam.
Hypothesis coat_nonneg : 0 <= coat.
Hypothesis some_weight : 0 < W0 + coat.

Local Abbreviation weight r :=
  (W0 + 2 * ((P * r ^ 2 * Lc + 1 / 3 * P * r ^ 2 * h) * foam
             + (2 * P * r * Lc + P * r * sqrt (r ^ 2 + h ^ 2) + P * r ^ 2)
               * coat)).

Lemma weight_pos (r : R) : 0 < r -> 0 < weight r.
Proof.
  intros Hr.
  pose proof (sqrt_pos (r ^ 2 + h ^ 2)) as Hs.
  assert (Hr2 : 0 < r ^ 2) by (apply pow_lt; exact Hr).
  assert (Hv : 0 <= (P * r ^ 2 * Lc + 1 / 3 * P * r ^ 2 * h) * foam).
  { apply Rmult_le_pos; [| exact foam_nonneg].
    assert (0 <= P * r ^ 2 * Lc) by (repeat apply Rmult_le_pos; lra).
    assert (0 <= P * r ^ 2 * h) by (repeat apply Rmult_le_pos; lra).
    lra. }
  assert (Ha1 : 0 <= 2 * P * r * Lc) by (repeat apply Rmult_le_pos; lra).
  assert (Ha2 : 0 <= P * r * sqrt (r ^ 2 + h ^ 2))
    by (repeat apply Rmult_le_pos; lra).
  assert (Ha3 : 0 < P * r ^ 2) by (apply Rmult_lt_0_compat; lra).
  assert (Hc : 0 <= (2 * P * r * Lc + P * r * sqrt (r ^ 2 + h ^ 2)) * coat)
    by (apply Rmult_le_pos; lra).
  assert (Hc3 : 0 <= P * r ^ 2 * coat) by (apply Rmult_le_pos; lra).
  destruct (Rle_lt_dec W0 0) as [Hw | Hw].
  - assert (0 < coat) by lra.
    assert (0 < P * r ^ 2 * coat) by (apply Rmult_lt_0_compat; lra).
    lra.
  - lra.
Qed.

Lemma weight_cross (r1 r2 : R) :
  0 < r1 -> r1 < r2 -> r1 ^ 2 * weight r2 < r2 ^ 2 * weight r1.
Proof.
  intros Hr1 Hr12.
  pose proof (slant_cross_le r1 r2 h Hr1 Hr12) as Hle. cbv zeta in Hle.
  set (S1 := sqrt (r1 ^ 2 + h ^ 2)) in *.
  set (S2 := sqrt (r2 ^ 2 + h ^ 2)) in *.
  assert (Hb : 2 * Lc * (r1 - r2) + (r1 * S2 - r2 * S1) < 0).
  { assert (Hc1 : 0 <= Lc * (r2 - r1)) by (apply Rmult_le_pos; lra).
    destruct (Req_dec_T h 0) as [Hh | Hh].
    - assert (0 < Lc * (r2 - r1)) by (apply Rmult_lt_0_compat; lra). lra.
    - pose proof (slant_cross_lt r1 r2 h Hr1 Hr12 Hh) as Hlt.
      cbv zeta in Hlt. fold S1 S2 in Hlt. lra. }
  assert (Hid :
    r1 ^ 2 * (W0 + 2 * ((P * r2 ^ 2 * Lc + 1 / 3 * P * r2 ^ 2 * h) * foam
                + (2 * P * r2 * Lc + P * r2 * S2 + P * r2 ^ 2) * coat))
    - r2 ^ 2 * (W0 + 2 * ((P * r1 ^ 2 * Lc + 1 / 3 * P * r1 ^ 2 * h) * foam
                  + (2 * P * r1 * Lc + P * r1 * S1 + P * r1 ^ 2) * coat))
    = - (W0 * (r2 ^ 2 - r1 ^ 2))
      - 2 * (coat * ((P * r1 * r2)
                     * - (2 * Lc * (r1 - r2) + (r1 * S2 - r2 * S1))))) by ring.
  assert (Hd : 0 < r2 ^ 2 - r1 ^ 2) by nra.
  assert (Hp : 0 < P * r1 * r2)
    by (repeat apply Rmult_lt_0_compat; lra).
  assert (Hq : 0 < (P * r1 * r2)
                   * - (2 * Lc * (r1 - r2) + (r1 * S2 - r2 * S1)))
    by (apply Rmult_lt_0_compat; lra).
  assert (Ht1 : 0 <= W0 * (r2 ^ 2 - r1 ^ 2)) by (apply Rmult_le_pos; lra).
  assert (Ht2 : 0 <= coat * ((P * r1 * r2)
                   * - (2 * Lc * (r1 - r2) + (r1 * S2 - r2 * S1))))
    by (apply Rmult_le_pos; lra).
  destruct (Rle_lt_dec W0 0) as [Hw | Hw].
  - assert (0 < coat) by lra.
    assert (0 < coat * ((P * r1 * r2)
                   * - (2 * Lc * (r1 - r2) + (r1 * S2 - r2 * S1))))
      by (apply Rmult_lt_0_compat; lra).
    lra.
  - assert (0 < W0 * (r2 ^ 2 - r1 ^ 2)) by (apply Rmult_lt_0_compat; lra).
    lra.
Qed.
End weight_core.

Lemma Rdiv_lt_cross (a b c d : R) :
  0 < b -> 0 < d -> a * d < c * b -> a / b < c / d.
Proof.
  intros Hb Hd H.
  apply Rmult_lt_reg_r with (b * d); [now apply Rmult_lt_0_compat |].
  replace (a / b * (b * d)) with (a * d) by (field; lra).
  replace (c / d * (b * d)) with (c * b) by (field; lra).
  exact H.
Qed.

(** C8, as the code has it.  Take two inputs that differ only in the
    diameter, the first positive and the second larger, with positive
    length, submersion percentage and water density, a cone percentage
    between 0 and 100, and payload, foam density, coating weight, tube
    weight, cross beam length and number of cross beams not negative,
    where payload, coating weight and tube weight are not all zero.  Both
    evaluations return, and the second has the strictly larger volume per
    pontoon, total buoyant force and actual safety factor. *)
Theorem diameter_monotone (p : Params.t) (d1 d2 : R) :
  0 < d1 -> d1 < d2 ->
  0 < Params.length_ft p ->
  0 < Params.submersion_pct p ->
  0 < Params.water_density p ->
  0 <= Params.cone_pct p <= 100 ->
  0 <= Params.payload p ->
  0 <= Params.foam_density p ->
  0 <= Params.coating_weight p ->
  0 <= Params.tube_weight p ->
  0 <= Params.cross_beam_length p ->
  (0 <= Params.num_cross_beams p)%Z ->
  0 < Params.payload p \/ 0 < Params.coating_weight p
    \/ 0 < Params.tube_weight p ->
  exists r1 r2,
    calculate_design (with_diameter_in p d1) = Returns r1
    /\ calculate_design (with_diameter_in p d2) = Returns r2
    /\ Results.volume_per_pontoon r1 < Results.volume_per_pontoon r2
    /\ Results.total_buoyant_force r1 < Results.total_buoyant_force r2
    /\ Results.actual_safety_factor r1 < Results.actual_safety_factor r2.
Proof.
  intros Hd1 Hd12 HL Hsub Hwd [Hc0 Hc1] Hpay Hfoam Hcoat Htube Hcbl Hncb Hsome.
  set (q1 := with_diameter_in p d1). set (q2 := with_diameter_in p d2).
  set (L := Params.length_ft p) in *.
  set (c := Params.cone_pct p / 100).
  set (W0 := Params.payload p
             + (IZR (Params.num_cross_beams p) * Params.cross_beam_length p
                + 2 * L) * Params.tube_weight p).
  assert (Hn : 0 <= IZR (Params.num_cross_beams p)) by now apply IZR_le.
  assert (Hc : 0 <= c <= 1) by (unfold c; lra).
  assert (Hlen : 0 <= IZR (Params.num_cross_beams p)
                      * Params.cross_beam_length p)
    by (apply Rmult_le_pos; assumption).
  assert (Hframe : 0 <= (IZR (Params.num_cross_beams p)
                         * Params.cross_beam_length p + 2 * L)
                        * Params.tube_weight p)
    by (apply Rmult_le_pos; lra).
  assert (HW0 : 0 <= W0) by (unfold W0; lra).
  assert (HW : 0 < W0 + Params.coating_weight p).
  { unfold W0. destruct Hsome as [H | [H | H]]; try lra.
    assert (0 < (IZR (Params.num_cross_beams p)
                 * Params.cross_beam_length p + 2 * L)
                * Params.tube_weight p)
      by (apply Rmult_lt_0_compat; lra).
    lra. }
  assert (HLc : 0 <= L * (1 - c)) by (apply Rmult_le_pos; lra).
  assert (Hh : 0 <= L * c) by (apply Rmult_le_pos; lra).
  assert (HLh : 0 < L * (1 - c) + L * c) by lra.
  assert (HP : 0 < 3.141592653589793) by lra.
  assert (Hr1 : 0 < d1 / 12 / 2) by lra.
  assert (Hr12 : d1 / 12 / 2 < d2 / 12 / 2) by lra.
  assert (Hr2 : 0 < d2 / 12 / 2) by lra.
  pose proof (weight_pos _ W0 _ _ _ _ HP HW0 HLc Hh Hfoam Hcoat HW
                _ Hr1) as Hw1.
  pose proof (weight_pos _ W0 _ _ _ _ HP HW0 HLc Hh Hfoam Hcoat HW
                _ Hr2) as Hw2.
  pose proof (weight_cross _ W0 _ _ (Params.foam_density p) _
                HP HW0 HLc Hh HLh Hcoat HW
                _ _ Hr1 Hr12) as Hx.
  cbv zeta beta in Hw1, Hw2, Hx.
  (* the program's weights are the ones of the lemma *)
  match type of Hw1 with
  | 0 < ?w =>
      assert (E1 : CalculateDesign.total_boat_weight q1 = w)
        by (unfold q1, with_diameter_in, W0, c, L; locals; ring)
  end.
  match type of Hw2 with
  | 0 < ?w =>
      assert (E2 : CalculateDesign.total_boat_weight q2 = w)
        by (unfold q2, with_diameter_in, W0, c, L; locals; ring)
  end.
  rewrite <- E1 in Hw1, Hx. rewrite <- E2 in Hw2, Hx.
  (* volume and buoyant force are multiples of the squared radius *)
  set (k := 3.141592653589793 * (L * (1 - c) + 1 / 3 * (L * c))).
  assert (Hk : 0 < k) by (unfold k; apply Rmult_lt_0_compat; lra).
  assert (V1 : CalculateDesign.total_volume_per_pontoon q1
               = k * (d1 / 12 / 2) ^ 2)
    by (unfold q1, with_diameter_in, k, c, L; locals; ring).
  assert (V2 : CalculateDesign.total_volume_per_pontoon q2
               = k * (d2 / 12 / 2) ^ 2)
    by (unfold q2, with_diameter_in, k, c, L; locals; ring).
  set (s := Params.submersion_pct p / 100 * Params.water_density p).
  assert (Hs : 0 < s) by (unfold s; apply Rmult_lt_0_compat; lra).
  assert (B1 : CalculateDesign.total_buoyant_force q1
               = 2 * s * CalculateDesign.total_volume_per_pontoon q1)
    by (unfold q1, with_diameter_in, s; locals; ring).
  assert (B2 : CalculateDesign.total_buoyant_force q2
               = 2 * s * CalculateDesign.total_volume_per_pontoon q2)
    by (unfold q2, with_diameter_in, s; locals; ring).
  assert (Hsq : (d1 / 12 / 2) ^ 2 < (d2 / 12 / 2) ^ 2) by nra.
  assert (HV : CalculateDesign.total_volume_per_pontoon q1
               < CalculateDesign.total_volume_per_pontoon q2).
  { rewrite V1, V2. now apply Rmult_lt_compat_l. }
  assert (HB : CalculateDesign.total_buoyant_force q1
               < CalculateDesign.total_buoyant_force q2).
  { rewrite B1, B2. apply Rmult_lt_compat_l; lra. }
  do 2 eexists.
  split; [apply calculate_design_returns; lra |].
  split; [apply calculate_design_returns; lra |].
  cbn [Results.volume_per_pontoon Results.total_buoyant_force
       Results.actual_safety_factor].
  split; [exact HV | split; [exact HB |]].
  apply Rdiv_lt_cross; try assumption.
  rewrite B1, B2, V1, V2.
  assert (Hks : 0 < 2 * s * k) by (apply Rmult_lt_0_compat; lra).
  pose proof (Rmult_lt_compat_l _ _ _ Hks Hx) as Hfin.
  lra.
Qed.

Lemma diameter_monotone_witness :
  exists r1 r2,
    calculate_design (with_diameter_in literal_scenario 12) = Returns r1
    /\ calculate_design (with_diameter_in literal_scenario 24) = Returns r2
    /\ Results.volume_per_pontoon r1 < Results.volume_per_pontoon r2
    /\ Results.total_buoyant_force r1 < Results.total_buoyant_force r2
    /\ Results.actual_safety_factor r1 < Results.actual_safety_factor r2.
Proof.
  apply (diameter_monotone literal_scenario 12 24);
    cbn; try lra; try lia.
Defined.

Lemma bare_foam_safety_factor (d : R) :
  0 < d ->
  exists r,
    calculate_design (with_diameter_in bare_foam d) = Returns r
    /\ Results.actual_safety_factor r = 38.4.
Proof.
  intros Hd.
  assert (Hw : CalculateDesign.total_boat_weight (with_diameter_in bare_foam d)
               = 2 * (3.141592653589793 * 5 * (d / 24) ^ 2)).
  { unfold with_diameter_in, bare_foam. locals. lra. }
  assert (Hb : CalculateDesign.total_buoyant_force (with_diameter_in bare_foam d)
               = 38.4 * (2 * (3.141592653589793 * 5 * (d / 24) ^ 2))).
  { unfold with_diameter_in, bare_foam. locals. lra. }
  assert (Hpos : 0 < 2 * (3.141592653589793 * 5 * (d / 24) ^ 2)).
  { assert (0 < (d / 24) ^ 2) by (apply pow_lt; lra). lra. }
  eexists. split.
  - apply calculate_design_returns. lra.
  - cbn [Results.actual_safety_factor]. rewrite Hb, Hw. field. lra.
Qed.

(** C8, as the specification words it, fails.  On bare foam both the
    weight and the buoyant force are proportional to the volume, so the
    actual safety factor is 38.4 at 12 inches and at 24 inches alike. *)
Lemma diameter_monotone_not_strict :
  0 < Params.length_ft bare_foam
  /\ 0 < Params.submersion_pct bare_foam
  /\ 0 < Params.water_density bare_foam
  /\ exists r1 r2,
       calculate_design (with_diameter_in bare_foam 12) = Returns r1
       /\ calculate_design (with_diameter_in bare_foam 24) = Returns r2
       /\ Results.actual_safety_factor r1 = 38.4
       /\ Results.actual_safety_factor r2 = 38.4
       /\ ~ Results.actual_safety_factor r1 < Results.actual_safety_factor r2.
Proof.
  repeat split; try (cbn; lra).
  destruct (bare_foam_safety_factor 12) as [r1 [H1 A1]]; [lra |].
  destruct (bare_foam_safety_factor 24) as [r2 [H2 A2]]; [lra |].
  exists r1, r2. repeat split; try assumption.
  rewrite A1, A2. lra.
Qed.

(** The side conditions on the diameter are needed as well: from a
    negative diameter to a larger one the volume can shrink. *)
Lemma diameter_monotone_needs_positive_diameter :
  CalculateDesign.total_volume_per_pontoon (with_diameter_in literal_scenario 12)
  < CalculateDesign.total_volume_per_pontoon
      (with_diameter_in literal_scenario (-24)).
Proof. unfold with_diameter_in, literal_scenario. locals. lra. Qed.

(** ** The zero-weight edge case, seen from the caller *)

(** C5, as the specification words it, fails.  On the weightless boat
    the call does not return anything, an error value included: the
    division raises, and the exception passes through the caller
    uncaught, as Auto-Optimize on the same record shows. *)
Lemma zero_weight_fault_uncaught :
  CalculateDesign.total_boat_weight weightless = 0
  /\ (~ exists r, calculate_design weightless = Returns r)
  /\ calculate_design weightless = Raises ZeroDivisionError
  /\ on_optimize weightless = Raises ZeroDivisionError.
Proof.
  pose proof (calculate_design_raises weightless
                weightless_total_boat_weight) as Hc.
  split; [exact weightless_total_boat_weight | split; [| split]].
  - intros [r Hr]. rewrite Hc in Hr. discriminate Hr.
  - exact Hc.
  - unfold on_optimize.
    rewrite (optimize_design_no_payload weightless)
      by (try reflexivity; unfold weightless; locals; lra).
    cbn [bind fst snd].
    apply calculate_design_raises.
    unfold resize, weightless. locals. lra.
Qed.

(** * Further properties of [calculate_design] *)

(** ** Geometry *)

(** X1. The volume of a pontoon is pi r^2 times the length times
    (1 - 2/3 of the cone fraction): the part of the length that is cone
    holds a third of what it would hold as cylinder.  The volume of both
    is twice that. *)
Theorem volume_closed_form (p : Params.t) :
  CalculateDesign.total_volume_per_pontoon p
  = 3.141592653589793 * CalculateDesign.radius_ft p ^ 2
    * Params.length_ft p * (1 - 2 / 3 * (Params.cone_pct p / 100))
  /\ CalculateDesign.total_volume_both p
     = 2 * 3.141592653589793 * CalculateDesign.radius_ft p ^ 2
       * Params.length_ft p * (1 - 2 / 3 * (Params.cone_pct p / 100))
  /\ CalculateDesign.cone_volume p
     = 1 / 3 * (3.141592653589793 * CalculateDesign.radius_ft p ^ 2
                * CalculateDesign.cone_length_ft p).
Proof.
  repeat split;
    unfold CalculateDesign.total_volume_both,
      CalculateDesign.total_volume_per_pontoon,
      CalculateDesign.cylinder_volume, CalculateDesign.cone_volume,
      CalculateDesign.cylinder_length_ft, CalculateDesign.cone_length_ft,
      CalculateDesign.cone_pct, CalculateDesign.length_ft;
    lra.
Qed.

(** X2. An all-cone pontoon (cone percentage 100) has no cylinder: its
    cylinder length, volume and lateral area are zero, its volume is a
    third of the cylinder of the same radius and length, and its slant
    height is the hypotenuse over radius and length. *)
Theorem degenerate_cylinder (p : Params.t) :
  Params.cone_pct p = 100 ->
  CalculateDesign.cylinder_length_ft p = 0
  /\ CalculateDesign.cone_length_ft p = Params.length_ft p
  /\ CalculateDesign.cylinder_volume p = 0
  /\ CalculateDesign.cylinder_surface_area p = 0
  /\ CalculateDesign.total_volume_per_pontoon p
     = 1 / 3 * (3.141592653589793 * CalculateDesign.radius_ft p ^ 2
                * Params.length_ft p)
  /\ CalculateDesign.slant_height p
     = sqrt (CalculateDesign.radius_ft p ^ 2 + Params.length_ft p ^ 2)
  /\ CalculateDesign.total_surface_area_per_pontoon p
     = CalculateDesign.cone_surface_area p + CalculateDesign.end_cap_area p.
Proof.
  intros Hc.
  assert (H0 : CalculateDesign.cylinder_length_ft p = 0).
  { unfold CalculateDesign.cylinder_length_ft, CalculateDesign.cone_pct.
    rewrite Hc. lra. }
  assert (H1 : CalculateDesign.cone_length_ft p = Params.length_ft p).
  { unfold CalculateDesign.cone_length_ft, CalculateDesign.cone_pct,
      CalculateDesign.length_ft.
    rewrite Hc. lra. }
  assert (Hv : CalculateDesign.cylinder_volume p = 0).
  { unfold CalculateDesign.cylinder_volume. rewrite H0. ring. }
  assert (Ha : CalculateDesign.cylinder_surface_area p = 0).
  { unfold CalculateDesign.cylinder_surface_area. rewrite H0. ring. }
  repeat split; try assumption.
  - unfold CalculateDesign.total_volume_per_pontoon. rewrite Hv.
    unfold CalculateDesign.cone_volume. rewrite H1. lra.
  - unfold CalculateDesign.slant_height. now rewrite H1.
  - unfold CalculateDesign.total_surface_area_per_pontoon. rewrite Ha. ring.
Qed.

Lemma degenerate_cylinder_witness :
  Params.cone_pct all_cone = 100
  /\ CalculateDesign.cylinder_volume all_cone = 0
  /\ CalculateDesign.total_volume_per_pontoon all_cone
     = 1 / 3 * (3.141592653589793 * CalculateDesign.radius_ft all_cone ^ 2
                * Params.length_ft all_cone).
Proof.
  assert (Hc : Params.cone_pct all_cone = 100) by reflexivity.
  destruct (degenerate_cylinder all_cone Hc) as [_ [_ [Hv [_ [Ht _]]]]].
  exact (conj Hc (conj Hv Ht)).
Defined.

Lemma sqrt_sum_squares_bounds (r h : R) :
  Rabs r <= sqrt (r ^ 2 + h ^ 2)
  /\ Rabs h <= sqrt (r ^ 2 + h ^ 2)
  /\ sqrt (r ^ 2 + h ^ 2) <= Rabs r + Rabs h.
Proof.
  pose proof (pow2_ge_0 r) as Hr. pose proof (pow2_ge_0 h) as Hh.
  pose proof (Rabs_pos r) as Ar. pose proof (Rabs_pos h) as Ah.
  assert (Er : Rabs r = sqrt (r ^ 2)).
  { replace (r ^ 2) with (Rsqr r) by (unfold Rsqr; ring).
    now rewrite sqrt_Rsqr_abs. }
  assert (Eh : Rabs h = sqrt (h ^ 2)).
  { replace (h ^ 2) with (Rsqr h) by (unfold Rsqr; ring).
    now rewrite sqrt_Rsqr_abs. }
  split; [| split].
  - rewrite Er. apply sqrt_le_1_alt. lra.
  - rewrite Eh. apply sqrt_le_1_alt. lra.
  - rewrite <- (sqrt_pow2 (Rabs r + Rabs h)) by lra.
    apply sqrt_le_1_alt.
    assert (Rabs r ^ 2 = r ^ 2)
      by (unfold Rabs; destruct (Rcase_abs r); ring).
    assert (Rabs h ^ 2 = h ^ 2)
      by (unfold Rabs; destruct (Rcase_abs h); ring).
    assert (0 <= Rabs r * Rabs h) by (apply Rmult_le_pos; assumption).
    replace ((Rabs r + Rabs h) ^ 2)
      with (Rabs r ^ 2 + Rabs h ^ 2 + 2 * (Rabs r * Rabs h)) by ring.
    lra.
Qed.

(** X3. The slant height of the cone is at least the radius and at
    least the cone length in absolute value, and at most their sum.  For
    a non-negative diameter the cone's lateral area is therefore never
    less than the end cap. *)
Theorem slant_height_bounds (p : Params.t) :
  Rabs (CalculateDesign.radius_ft p) <= CalculateDesign.slant_height p
  /\ Rabs (CalculateDesign.cone_length_ft p) <= CalculateDesign.slant_height p
  /\ CalculateDesign.slant_height p
     <= Rabs (CalculateDesign.radius_ft p)
        + Rabs (CalculateDesign.cone_length_ft p)
  /\ (0 <= Params.diameter_in p ->
      CalculateDesign.end_cap_area p <= CalculateDesign.cone_surface_area p).
Proof.
  destruct (sqrt_sum_squares_bounds (CalculateDesign.radius_ft p)
              (CalculateDesign.cone_length_ft p)) as [H1 [H2 H3]].
  fold (CalculateDesign.slant_height p) in H1, H2, H3.
  repeat split; try assumption.
  intros Hd.
  assert (Hr : 0 <= CalculateDesign.radius_ft p)
    by (unfold CalculateDesign.radius_ft, CalculateDesign.diameter_ft,
          CalculateDesign.diameter_in; lra).
  rewrite (Rabs_pos_eq _ Hr) in H1.
  unfold CalculateDesign.end_cap_area, CalculateDesign.cone_surface_area.
  replace (3.141592653589793 * CalculateDesign.radius_ft p ^ 2)
    with (3.141592653589793 * CalculateDesign.radius_ft p
          * CalculateDesign.radius_ft p) by ring.
  apply Rmult_le_compat_l; [| exact H1].
  apply Rmult_le_pos; lra.
Qed.

(** ** Comparing with a quotient *)

Lemma le_div_iff (a w s : R) : 0 < w -> (s <= a / w <-> w * s <= a).
Proof.
  intros Hw.
  assert (Hq : a / w * w = a) by (field; lra).
  split; intros H.
  - rewrite <- Hq. rewrite (Rmult_comm w s). apply Rmult_le_compat_r; lra.
  - apply Rmult_le_reg_r with w; [exact Hw |]. rewrite Hq. lra.
Qed.

(** ** Meaningful inputs *)

(** A product of non-negative factors is non-negative. *)
Ltac nonneg := first [ lra | apply Rmult_le_pos; nonneg ].

Lemma meaningful_locals (p : Params.t) :
  0 <= Params.payload p ->
  0 <= Params.diameter_in p ->
  0 <= Params.length_ft p ->
  0 <= Params.cone_pct p <= 100 ->
  0 <= Params.foam_density p ->
  0 <= Params.coating_weight p ->
  0 <= Params.cross_beam_length p ->
  (0 <= Params.num_cross_beams p)%Z ->
  0 <= Params.tube_weight p ->
  0 <= CalculateDesign.total_volume_per_pontoon p
  /\ 0 <= CalculateDesign.total_surface_area_per_pontoon p
  /\ 0 <= CalculateDesign.pontoon_weight p
  /\ 0 <= CalculateDesign.frame_weight p
  /\ Params.payload p <= CalculateDesign.total_boat_weight p.
Proof.
  intros Hpay Hd HL [Hc0 Hc1] Hfoam Hcoat Hcbl Hncb Htube.
  assert (Hr : 0 <= CalculateDesign.radius_ft p)
    by (unfold CalculateDesign.radius_ft, CalculateDesign.diameter_ft,
          CalculateDesign.diameter_in; lra).
  assert (Hr2 : 0 <= CalculateDesign.radius_ft p ^ 2) by apply pow2_ge_0.
  assert (Hcl : 0 <= CalculateDesign.cone_length_ft p).
  { unfold CalculateDesign.cone_length_ft, CalculateDesign.cone_pct,
      CalculateDesign.length_ft. apply Rmult_le_pos; lra. }
  assert (Hyl : 0 <= CalculateDesign.cylinder_length_ft p).
  { unfold CalculateDesign.cylinder_length_ft, CalculateDesign.cone_pct,
      CalculateDesign.length_ft. apply Rmult_le_pos; lra. }
  assert (Hs : 0 <= CalculateDesign.slant_height p) by apply sqrt_pos.
  assert (Hv : 0 <= CalculateDesign.total_volume_per_pontoon p).
  { unfold CalculateDesign.total_volume_per_pontoon,
      CalculateDesign.cylinder_volume, CalculateDesign.cone_volume.
    assert (0 <= 3.141592653589793 * CalculateDesign.radius_ft p ^ 2
                 * CalculateDesign.cylinder_length_ft p) by nonneg.
    assert (0 <= 1 / 3 * 3.141592653589793 * CalculateDesign.radius_ft p ^ 2
                 * CalculateDesign.cone_length_ft p) by nonneg.
    lra. }
  assert (Ha : 0 <= CalculateDesign.total_surface_area_per_pontoon p).
  { unfold CalculateDesign.total_surface_area_per_pontoon,
      CalculateDesign.cylinder_surface_area, CalculateDesign.cone_surface_area,
      CalculateDesign.end_cap_area.
    assert (0 <= 2 * 3.141592653589793 * CalculateDesign.radius_ft p
                 * CalculateDesign.cylinder_length_ft p) by nonneg.
    assert (0 <= 3.141592653589793 * CalculateDesign.radius_ft p
                 * CalculateDesign.slant_height p) by nonneg.
    assert (0 <= 3.141592653589793 * CalculateDesign.radius_ft p ^ 2)
      by nonneg.
    lra. }
  assert (Hpw : 0 <= CalculateDesign.pontoon_weight p).
  { unfold CalculateDesign.pontoon_weight,
      CalculateDesign.foam_weight_per_pontoon,
      CalculateDesign.coating_weight_per_pontoon,
      CalculateDesign.foam_density, CalculateDesign.coating_weight.
    assert (0 <= CalculateDesign.total_volume_per_pontoon p
                 * Params.foam_density p) by nonneg.
    assert (0 <= CalculateDesign.total_surface_area_per_pontoon p
                 * Params.coating_weight p) by nonneg.
    lra. }
  assert (Hfw : 0 <= CalculateDesign.frame_weight p).
  { unfold CalculateDesign.frame_weight, CalculateDesign.total_tube_length,
      CalculateDesign.num_cross_beams, CalculateDesign.cross_beam_length,
      CalculateDesign.length_ft, CalculateDesign.tube_weight.
    assert (0 <= IZR (Params.num_cross_beams p)) by now apply IZR_le.
    assert (0 <= IZR (Params.num_cross_beams p) * Params.cross_beam_length p)
      by nonneg.
    apply Rmult_le_pos; lra. }
  repeat split; try assumption.
  unfold CalculateDesign.total_boat_weight, CalculateDesign.payload. lra.
Qed.

(** X6. On a physically meaningful input, a positive payload with every
    other value non-negative and the cone percentage between 0 and 100,
    [calculate_design] returns a result; in it the total weight is at
    least the payload, and volume, surface, pontoon weight, frame weight,
    buoyant force and actual safety factor are not negative. *)
Theorem meaningful_input_returns (p : Params.t) :
  0 < Params.payload p ->
  0 <= Params.submersion_pct p ->
  0 <= Params.diameter_in p ->
  0 <= Params.length_ft p ->
  0 <= Params.cone_pct p <= 100 ->
  0 <= Params.foam_density p ->
  0 <= Params.coating_weight p ->
  0 <= Params.water_density p ->
  0 <= Params.cross_beam_length p ->
  (0 <= Params.num_cross_beams p)%Z ->
  0 <= Params.tube_weight p ->
  exists r,
    calculate_design p = Returns r
    /\ Params.payload p <= Results.total_boat_weight r
    /\ 0 <= Results.volume_per_pontoon r
    /\ 0 <= Results.total_surface_area_both r
    /\ 0 <= Results.pontoon_weight r
    /\ 0 <= Results.frame_weight r
    /\ 0 <= Results.total_buoyant_force r
    /\ 0 <= Results.actual_safety_factor r.
Proof.
  intros Hpay Hsub Hd HL Hc Hfoam Hcoat Hwd Hcbl Hncb Htube.
  destruct (meaningful_locals p) as [Hv [Ha [Hpw [Hfw Hw]]]];
    try assumption; [lra |].
  assert (Hb : 0 <= CalculateDesign.total_buoyant_force p).
  { unfold CalculateDesign.total_buoyant_force,
      CalculateDesign.submerged_volume_per_pontoon,
      CalculateDesign.submersion_pct, CalculateDesign.water_density.
    nonneg. }
  eexists. split; [apply calculate_design_returns; lra |].
  cbn [Results.total_boat_weight Results.volume_per_pontoon
       Results.total_surface_area_both Results.pontoon_weight
       Results.frame_weight Results.total_buoyant_force
       Results.actual_safety_factor].
  repeat split; try assumption.
  - unfold CalculateDesign.total_surface_area_both. lra.
  - apply Rmult_le_pos; [exact Hb |].
    left. apply Rinv_0_lt_compat. lra.
Qed.

Lemma meaningful_input_returns_witness :
  exists r,
    calculate_design literal_scenario = Returns r
    /\ Params.payload literal_scenario <= Results.total_boat_weight r.
Proof.
  destruct (meaningful_input_returns literal_scenario) as [r [H1 [H2 _]]];
    try (cbn; lra); try (cbn; lia).
  exists r. exact (conj H1 H2).
Defined.

(** ** Draft *)

(** X7. The draft is the diameter scaled by the submersion percentage
    and is not clamped: between 0 and 100 percent it lies between zero
    and the diameter, above 100 percent it exceeds the diameter. *)
Theorem draft_bounds (p : Params.t) :
  CalculateDesign.total_boat_weight p <> 0 ->
  0 < Params.diameter_in p ->
  exists r,
    calculate_design p = Returns r
    /\ (0 <= Params.submersion_pct p <= 100 ->
        0 <= Results.draft_in r <= Params.diameter_in p)
    /\ (100 < Params.submersion_pct p ->
        Params.diameter_in p < Results.draft_in r)
    /\ (Params.submersion_pct p < 0 -> Results.draft_in r < 0).
Proof.
  intros Hw Hd. eexists. split; [now apply calculate_design_returns |].
  cbn [Results.draft_in].
  assert (E : CalculateDesign.draft_ft p * 12
              = Params.diameter_in p * (Params.submersion_pct p / 100))
    by (autounfold with design; field).
  rewrite E.
  split; [| split].
  - intros [H0 H1]. split.
    + apply Rmult_le_pos; lra.
    + assert (Params.diameter_in p * (Params.submersion_pct p / 100)
              <= Params.diameter_in p * 1)
        by (apply Rmult_le_compat_l; lra).
      lra.
  - intros H.
    assert (Params.diameter_in p * 1
            < Params.diameter_in p * (Params.submersion_pct p / 100))
      by (apply Rmult_lt_compat_l; lra).
    lra.
  - intros H.
    assert (Params.diameter_in p * (Params.submersion_pct p / 100)
            < Params.diameter_in p * 0)
      by (apply Rmult_lt_compat_l; lra).
    lra.
Qed.

Lemma draft_bounds_witness :
  exists r,
    calculate_design literal_scenario = Returns r
    /\ 0 <= Results.draft_in r <= Params.diameter_in literal_scenario.
Proof.
  destruct (draft_bounds literal_scenario) as [r [H1 [H2 _]]].
  - pose proof literal_scenario_weight_positive. lra.
  - cbn. lra.
  - exists r. split; [exact H1 |]. apply H2. cbn. lra.
Defined.

(** ** Scaling *)

(** X8. Volume and buoyant force grow with the square of the diameter
    and in proportion to the length: a pontoon [k] times as wide holds
    [k^2] times the volume and displaces [k^2] times the water, one [k]
    times as long [k] times. *)
Theorem volume_scaling (p : Params.t) (k : R) :
  CalculateDesign.total_volume_per_pontoon
    (with_diameter_in p (k * Params.diameter_in p))
  = k ^ 2 * CalculateDesign.total_volume_per_pontoon p
  /\ CalculateDesign.total_buoyant_force
       (with_diameter_in p (k * Params.diameter_in p))
     = k ^ 2 * CalculateDesign.total_buoyant_force p
  /\ CalculateDesign.total_volume_per_pontoon
       (with_length_ft p (k * Params.length_ft p))
     = k * CalculateDesign.total_volume_per_pontoon p
  /\ CalculateDesign.total_buoyant_force
       (with_length_ft p (k * Params.length_ft p))
     = k * CalculateDesign.total_buoyant_force p.
Proof.
  repeat split; unfold with_diameter_in, with_length_ft; locals; field.
Qed.

(** ** The safety factor *)


(** X10. For a boat of positive weight, lowering the requested safety
    factor never turns a viable design into an insufficient one, and
    raising it never turns an insufficient one into a viable one. *)
Theorem status_antitone_in_safety_factor (p : Params.t) (sf : R) :
  0 < CalculateDesign.total_boat_weight p ->
  sf <= Params.safety_factor p ->
  exists r r',
    calculate_design p = Returns r
    /\ calculate_design (with_safety_factor p sf) = Returns r'
    /\ (Results.status r = VIABLE -> Results.status r' = VIABLE)
    /\ (Results.status r' = INSUFFICIENT_BUOYANCY ->
        Results.status r = INSUFFICIENT_BUOYANCY).
Proof.
  intros Hw Hsf.
  assert (Ew : CalculateDesign.total_boat_weight (with_safety_factor p sf)
               = CalculateDesign.total_boat_weight p) by reflexivity.
  assert (Eb : CalculateDesign.total_buoyant_force (with_safety_factor p sf)
               = CalculateDesign.total_buoyant_force p) by reflexivity.
  assert (Hle : CalculateDesign.required_displacement (with_safety_factor p sf)
                <= CalculateDesign.required_displacement p).
  { unfold CalculateDesign.required_displacement. rewrite Ew.
    apply Rmult_le_compat_l; [lra | exact Hsf]. }
  do 2 eexists.
  split; [apply calculate_design_returns; lra |].
  split; [apply calculate_design_returns; rewrite Ew; lra |].
  cbn [Results.status].
  rewrite !status_VIABLE, !status_INSUFFICIENT_BUOYANCY, Eb.
  split; lra.
Qed.

Lemma status_antitone_in_safety_factor_witness :
  exists r r',
    calculate_design literal_scenario = Returns r
    /\ calculate_design (with_safety_factor literal_scenario 1) = Returns r'
    /\ (Results.status r = VIABLE -> Results.status r' = VIABLE).
Proof.
  destruct (status_antitone_in_safety_factor literal_scenario 1
              literal_scenario_weight_positive)
    as [r [r' [H1 [H2 [H3 _]]]]].
  - cbn. lra.
  - exists r, r'. exact (conj H1 (conj H2 H3)).
Defined.

(** ** The payload *)

(** X11. Payload adds to the weight and to nothing else: with a payload
    heavier by [dw] the buoyant force and the geometry are unchanged, the
    total weight is heavier by [dw] and the reserve buoyancy smaller by
    [dw]; so for a non-negative safety factor a design that is viable
    with the heavier payload is viable with the lighter one. *)
Theorem payload_only_weight (p : Params.t) (dw : R) :
  CalculateDesign.total_boat_weight p <> 0 ->
  CalculateDesign.total_boat_weight p + dw <> 0 ->
  exists r r',
    calculate_design p = Returns r
    /\ calculate_design (with_payload p (Params.payload p + dw)) = Returns r'
    /\ Results.total_boat_weight r' = Results.total_boat_weight r + dw
    /\ Results.reserve_buoyancy r' = Results.reserve_buoyancy r - dw
    /\ Results.total_buoyant_force r' = Results.total_buoyant_force r
    /\ Results.volume_per_pontoon r' = Results.volume_per_pontoon r
    /\ Results.pontoon_weight r' = Results.pontoon_weight r
    /\ Results.frame_weight r' = Results.frame_weight r
    /\ Results.draft_in r' = Results.draft_in r
    /\ (0 <= dw -> 0 <= Params.safety_factor p ->
        Results.status r' = VIABLE -> Results.status r = VIABLE).
Proof.
  intros Hw Hw'.
  set (q := with_payload p (Params.payload p + dw)).
  assert (Ew : CalculateDesign.total_boat_weight q
               = CalculateDesign.total_boat_weight p + dw).
  { unfold CalculateDesign.total_boat_weight.
    change (CalculateDesign.pontoon_weight q)
      with (CalculateDesign.pontoon_weight p).
    change (CalculateDesign.frame_weight q)
      with (CalculateDesign.frame_weight p).
    change (CalculateDesign.payload q) with (Params.payload p + dw).
    unfold CalculateDesign.payload. ring. }
  assert (Eb : CalculateDesign.total_buoyant_force q
               = CalculateDesign.total_buoyant_force p) by reflexivity.
  do 2 eexists.
  split; [now apply calculate_design_returns |].
  split; [apply calculate_design_returns; rewrite Ew; exact Hw' |].
  cbn [Results.total_boat_weight Results.reserve_buoyancy
       Results.total_buoyant_force Results.volume_per_pontoon
       Results.pontoon_weight Results.frame_weight Results.draft_in
       Results.status].
  repeat split; try reflexivity; try exact Ew.
  - unfold CalculateDesign.reserve_buoyancy. rewrite Ew, Eb. ring.
  - intros Hdw Hsf. rewrite !status_VIABLE.
    unfold CalculateDesign.required_displacement. rewrite Ew, Eb.
    change (CalculateDesign.safety_factor q)
      with (CalculateDesign.safety_factor p).
    unfold CalculateDesign.safety_factor.
    assert (Hp : 0 <= dw * Params.safety_factor p)
      by (apply Rmult_le_pos; lra).
    intros Hv. lra.
Qed.

Lemma payload_only_weight_witness :
  exists r r',
    calculate_design literal_scenario = Returns r
    /\ calculate_design
         (with_payload literal_scenario (Params.payload literal_scenario + 50))
       = Returns r'
    /\ Results.reserve_buoyancy r' = Results.reserve_buoyancy r - 50.
Proof.
  pose proof literal_scenario_weight_positive as Hw.
  destruct (payload_only_weight literal_scenario 50)
    as [r [r' [H1 [H2 [_ [H3 _]]]]]]; try lra.
  exists r, r'. exact (conj H1 (conj H2 H3)).
Defined.

(** * Further properties of [optimize_design] *)

(** ** What the optimizer reads *)

(** X13. [optimize_design] reads four entries of [params]: payload,
    safety factor, submersion percentage and water density.  Two inputs
    that agree on these give the same outcome, whatever their diameter,
    length, cone percentage, materials and frame. *)
Theorem optimize_design_reads_four (p q : Params.t) :
  Params.payload p = Params.payload q ->
  Params.safety_factor p = Params.safety_factor q ->
  Params.submersion_pct p = Params.submersion_pct q ->
  Params.water_density p = Params.water_density q ->
  optimize_design p = optimize_design q.
Proof.
  intros H1 H2 H3 H4.
  unfold optimize_design, OptimizeDesign.result, OptimizeDesign.diameter_in,
    OptimizeDesign.length_ft, OptimizeDesign.diameter_ft,
    OptimizeDesign.required_vol_per_pontoon, OptimizeDesign.required_disp,
    OptimizeDesign.estimated_weight, OptimizeDesign.payload,
    OptimizeDesign.safety_factor, OptimizeDesign.submersion_pct,
    OptimizeDesign.water_density.
  now rewrite H1, H2, H3, H4.
Qed.

Lemma optimize_design_reads_four_witness :
  optimize_design literal_scenario = optimize_design all_cone.
Proof.
  apply (optimize_design_reads_four literal_scenario all_cone);
    reflexivity.
Defined.

(** X14. Auto-Optimize is idempotent.  Once the returned diameter and
    length are in the record, optimizing again returns the same pair,
    leaves the record as it is and recalculates the same result. *)
Theorem on_optimize_idempotent (p : Params.t) (new_dia : Z) (new_len : R) :
  optimize_design p = Returns (new_dia, new_len) ->
  optimize_design (resize p new_dia new_len) = Returns (new_dia, new_len)
  /\ resize (resize p new_dia new_len) new_dia new_len
     = resize p new_dia new_len
  /\ on_optimize (resize p new_dia new_len) = on_optimize p.
Proof.
  intros H.
  assert (E : optimize_design (resize p new_dia new_len)
              = optimize_design p)
    by reflexivity.
  split; [now rewrite E | split; [reflexivity |]].
  unfold on_optimize. rewrite E, H. reflexivity.
Qed.

Lemma on_optimize_idempotent_witness :
  on_optimize (resize literal_scenario 12 4.06) = on_optimize literal_scenario.
Proof.
  exact (proj2 (proj2 (on_optimize_idempotent literal_scenario 12 4.06
                         (optimize_design_mission 12 6)))).
Defined.

(** ** The sizing rule *)

(** X15. The rule behind the size.  Before rounding, the optimizer's
    diameter [D] in feet is such that a pontoon without a cone, [D]
    across and [4 D] long, has exactly the required volume; evaluated by
    [calculate_design], two such pontoons carry a buoyant force of
    exactly payload times 1.4 times the safety factor. *)
Theorem optimizer_target (p : Params.t) :
  Params.water_density p * (Params.submersion_pct p / 100) <> 0 ->
  0 <= radicand p ->
  exists D,
    0 <= D
    /\ optimize_design p
       = Returns (round_half_even (D * 12),
                  IZR (round_half_even (D * 4 * 10 ^ 2)) / 10 ^ 2)
    /\ CalculateDesign.total_volume_per_pontoon (plain_cylinder p D)
       = Params.payload p * 1.4 * Params.safety_factor p / 2
         / (Params.water_density p * (Params.submersion_pct p / 100))
    /\ CalculateDesign.total_buoyant_force (plain_cylinder p D)
       = Params.payload p * 1.4 * Params.safety_factor p.
Proof.
  intros Hnz Hx.
  destruct (optimize_design_returns p Hnz Hx) as [D [HD [Hcube Hr]]].
  exists D. split; [exact HD | split; [exact Hr |]].
  assert (Hv : CalculateDesign.total_volume_per_pontoon (plain_cylinder p D)
               = math_pi * D ^ 3)
    by (unfold plain_cylinder, math_pi; locals; field).
  assert (Hq : math_pi * radicand p
               = Params.payload p * 1.4 * Params.safety_factor p / 2
                 / (Params.water_density p * (Params.submersion_pct p / 100))).
  { unfold radicand.
    set (Y := Params.payload p * 1.4 * Params.safety_factor p / 2
              / (Params.water_density p * (Params.submersion_pct p / 100))).
    assert (math_pi <> 0) by (unfold math_pi; lra).
    field. assumption. }
  split.
  - now rewrite Hv, Hcube.
  - unfold CalculateDesign.total_buoyant_force,
      CalculateDesign.submerged_volume_per_pontoon.
    rewrite Hv, Hcube, Hq.
    change (CalculateDesign.submersion_pct (plain_cylinder p D))
      with (Params.submersion_pct p / 100).
    change (CalculateDesign.water_density (plain_cylinder p D))
      with (Params.water_density p).
    assert (Hwd : Params.water_density p <> 0)
      by (intros C; apply Hnz; rewrite C; ring).
    assert (Hsub : Params.submersion_pct p <> 0)
      by (intros C; apply Hnz; rewrite C; field).
    field. tauto.
Qed.

Lemma optimizer_target_witness :
  exists D,
    optimize_design literal_scenario
    = Returns (round_half_even (D * 12),
               IZR (round_half_even (D * 4 * 10 ^ 2)) / 10 ^ 2)
    /\ CalculateDesign.total_buoyant_force (plain_cylinder literal_scenario D)
       = Params.payload literal_scenario * 1.4
         * Params.safety_factor literal_scenario.
Proof.
  destruct (optimizer_target literal_scenario) as [D [_ [H1 [_ H2]]]].
  - unfold literal_scenario. locals. lra.
  - unfold radicand, math_pi, literal_scenario. locals. lra.
  - exists D. exact (conj H1 H2).
Defined.

(** X16. The returned diameter is within half an inch of the unrounded
    one and the returned length within 0.005 ft of four unrounded
    diameters; the returned pair therefore keeps the 4:1 ratio up to
    103/600 ft (about two inches): |lengthFt - 4 * diameterIn / 12| is
    at most 1/6 + 1/200. *)
Theorem optimizer_ratio_error (p : Params.t) :
  Params.water_density p * (Params.submersion_pct p / 100) <> 0 ->
  0 <= radicand p ->
  exists (D : R) (new_dia : Z) (new_len : R),
    D ^ 3 = radicand p
    /\ optimize_design p = Returns (new_dia, new_len)
    /\ Rabs (IZR new_dia - 12 * D) <= 1 / 2
    /\ Rabs (new_len - 4 * D) <= 1 / 200
    /\ Rabs (new_len - 4 * (IZR new_dia / 12)) <= 103 / 600.
Proof.
  intros Hnz Hx.
  destruct (optimize_design_returns p Hnz Hx) as [D [HD [Hcube Hr]]].
  exists D, (round_half_even (D * 12)),
    (IZR (round_half_even (D * 4 * 10 ^ 2)) / 10 ^ 2).
  pose proof (round_half_even_error (D * 12)) as E1.
  pose proof (round_half_even_error (D * 4 * 10 ^ 2)) as E2.
  apply Rabs_le_bounds in E1. apply Rabs_le_bounds in E2.
  split; [exact Hcube | split; [exact Hr |]].
  repeat split; apply Rabs_le; lra.
Qed.

Lemma optimizer_ratio_error_witness :
  exists (new_dia : Z) (new_len : R),
    optimize_design literal_scenario = Returns (new_dia, new_len)
    /\ Rabs (new_len - 4 * (IZR new_dia / 12)) <= 103 / 600.
Proof.
  destruct (optimizer_ratio_error literal_scenario)
    as [D [new_dia [new_len [_ [H1 [_ [_ H2]]]]]]].
  - unfold literal_scenario. locals. lra.
  - unfold radicand, math_pi, literal_scenario. locals. lra.
  - exists new_dia, new_len. exact (conj H1 H2).
Defined.

(** ** Monotonicity and sign *)

(** [round] never reverses an order. *)
Lemma round_half_even_monotone (x y : R) :
  x <= y -> (round_half_even x <= round_half_even y)%Z.
Proof.
  intros Hxy.
  destruct (Z_le_gt_dec (round_half_even x) (round_half_even y))
    as [L | G]; [exact L | exfalso].
  pose proof (round_half_even_error x) as Ex.
  pose proof (round_half_even_error y) as Ey.
  apply Rabs_le_bounds in Ex. apply Rabs_le_bounds in Ey.
  assert (Hz : (round_half_even y + 1 <= round_half_even x)%Z) by lia.
  apply IZR_le in Hz. rewrite plus_IZR in Hz.
  assert (Exy : x = y) by lra.
  subst y. lia.
Qed.

Lemma round_half_even_0 : round_half_even 0 = 0%Z.
Proof. apply round_half_even_nearest. lra. Qed.

Lemma cube_le_reg (a b : R) : 0 <= a -> 0 <= b -> a ^ 3 <= b ^ 3 -> a <= b.
Proof.
  intros Ha Hb H.
  destruct (Rle_lt_dec a b) as [L | G]; [exact L | exfalso].
  pose proof (cube_lt_compat b a Hb G). lra.
Qed.

(** X17. A heavier payload never gets a smaller pontoon: for a positive
    safety factor, submersion percentage and water density, raising a
    non-negative payload lowers neither the returned diameter nor the
    returned length. *)
Theorem optimizer_monotone_in_payload (p : Params.t) (w : R) :
  0 <= Params.payload p <= w ->
  0 < Params.safety_factor p ->
  0 < Params.submersion_pct p ->
  0 < Params.water_density p ->
  exists (d d' : Z) (l l' : R),
    optimize_design p = Returns (d, l)
    /\ optimize_design (with_payload p w) = Returns (d', l')
    /\ (d <= d')%Z
    /\ l <= l'.
Proof.
  intros [Hp Hw] Hsf Hsub Hwd.
  destruct (radicand_nonneg p Hp Hsf Hsub Hwd) as [Hnz Hx].
  destruct (radicand_nonneg (with_payload p w)) as [Hnz' Hx'];
    try assumption; [cbn; lra |].
  destruct (optimize_design_returns p Hnz Hx) as [D [HD [Hc Hr]]].
  destruct (optimize_design_returns _ Hnz' Hx') as [D' [HD' [Hc' Hr']]].
  assert (Hrad : radicand p <= radicand (with_payload p w)).
  { unfold radicand, math_pi. cbn [with_payload Params.payload
      Params.safety_factor Params.water_density Params.submersion_pct].
    assert (Hd : 0 < Params.water_density p
                     * (Params.submersion_pct p / 100))
      by (apply Rmult_lt_0_compat; lra).
    apply Rmult_le_compat_r; [lra |].
    apply Rmult_le_compat_r; [left; now apply Rinv_0_lt_compat |].
    apply Rmult_le_compat_r; [lra |].
    apply Rmult_le_compat_r; lra. }
  assert (HDD : D <= D') by (apply cube_le_reg; lra).
  do 4 eexists. split; [exact Hr | split; [exact Hr' |]].
  split.
  - apply round_half_even_monotone. lra.
  - assert (Hz : (round_half_even (D * 4 * 10 ^ 2)
                  <= round_half_even (D' * 4 * 10 ^ 2))%Z)
      by (apply round_half_even_monotone; lra).
    apply IZR_le in Hz. lra.
Qed.

Lemma optimizer_monotone_in_payload_witness :
  exists (d d' : Z) (l l' : R),
    optimize_design literal_scenario = Returns (d, l)
    /\ optimize_design (with_payload literal_scenario 200) = Returns (d', l')
    /\ (d <= d')%Z
    /\ l <= l'.
Proof.
  apply (optimizer_monotone_in_payload literal_scenario 200); cbn; lra.
Defined.

(** X18. [optimize_design] never returns a negative size: whenever it
    returns, neither the diameter nor the length is below zero (a
    negative required volume raises instead). *)
Theorem optimizer_size_nonnegative (p : Params.t) (new_dia : Z) (new_len : R) :
  optimize_design p = Returns (new_dia, new_len) ->
  (0 <= new_dia)%Z /\ 0 <= new_len.
Proof.
  intros H.
  destruct (Req_dec_T (Params.water_density p
                       * (Params.submersion_pct p / 100)) 0) as [Hz | Hnz].
  { rewrite (optimize_design_zero_division p Hz) in H. discriminate H. }
  destruct (Rlt_le_dec (radicand p) 0) as [Hneg | Hpos].
  { rewrite (optimize_design_type_error p Hnz Hneg) in H. discriminate H. }
  destruct (optimize_design_returns p Hnz Hpos) as [D [HD [_ Hr]]].
  rewrite Hr in H. injection H as <- <-.
  split.
  - rewrite <- round_half_even_0. apply round_half_even_monotone. lra.
  - assert (Hz : (round_half_even 0 <= round_half_even (D * 4 * 10 ^ 2))%Z)
      by (apply round_half_even_monotone; lra).
    rewrite round_half_even_0 in Hz. apply IZR_le in Hz. 
    apply Rmult_le_pos; [exact Hz | lra].
Qed.

Lemma optimizer_size_nonnegative_witness :
  optimize_design literal_scenario = Returns (12%Z, 4.06)
  /\ (0 <= 12)%Z /\ 0 <= 4.06.
Proof.
  split; [exact (optimize_design_mission 12 6) |].
  exact (optimizer_size_nonnegative literal_scenario 12 4.06
           (optimize_design_mission 12 6)).
Defined.

(** * The chart *)

Lemma fold_max_spec (xs : list R) (acc : R) :
  let m := fold_left (fun m v => if Rlt_dec m v then v else m) xs acc in
  (m = acc \/ In m xs) /\ acc <= m /\ forall v, In v xs -> v <= m.
Proof.
  revert acc. induction xs as [| x xs IH]; intros acc; cbn.
  - split; [now left | split; [lra | intros v []]].
  - destruct (Rlt_dec acc x) as [L | G].
    + destruct (IH x) as [H1 [H2 H3]]. cbv zeta in H1, H2, H3.
      split; [| split].
      * destruct H1 as [-> | H1]; right; [now left | now right].
      * lra.
      * intros v [<- | Hv]; [exact H2 | now apply H3].
    + destruct (IH acc) as [H1 [H2 H3]]. cbv zeta in H1, H2, H3.
      split; [| split].
      * destruct H1 as [-> | H1]; [now left | right; now right].
      * exact H2.
      * intros v [<- | Hv]; [lra | now apply H3].
Qed.

Lemma max_spec (x : R) (xs : list R) :
  exists m,
    max (x :: xs) = Some m
    /\ In m (x :: xs)
    /\ forall v, In v (x :: xs) -> v <= m.
Proof.
  destruct (fold_max_spec xs x) as [H1 [H2 H3]]. cbv zeta in H1, H2, H3.
  eexists. split; [reflexivity | split].
  - destruct H1 as [-> | H1]; [now left | now right].
  - intros v [<- | Hv]; [exact H2 | now apply H3].
Qed.

(** X19. The chart always has its axis and its three labels: the list
    of bars is never empty, so [max] succeeds; the top of the y axis is
    1.2 times the highest bar; and when that bar is positive, every value
    is written below the top of the axis, at most 1.02 times the highest
    bar up. *)
Theorem chart_axis (r : Results.t) :
  exists (m : R) (heights : list R),
    max (UpdateChart.data r) = Some m
    /\ In m (UpdateChart.data r)
    /\ (forall v, In v (UpdateChart.data r) -> v <= m)
    /\ UpdateChart.ylim r = Some (0, m * 1.2)
    /\ UpdateChart.text_heights r = Some heights
    /\ List.length heights = 3%nat
    /\ (0 < m -> forall y, In y heights -> y <= m * 1.02 < m * 1.2).
Proof.
  unfold UpdateChart.ylim, UpdateChart.text_heights.
  destruct (max_spec (Results.total_boat_weight r)
              [Results.total_buoyant_force r;
               Results.actual_safety_factor r * 100]) as [m [Hm [Hin Hle]]].
  fold (UpdateChart.data r) in Hm, Hin, Hle.
  exists m. rewrite Hm. eexists.
  split; [reflexivity | split; [exact Hin | split; [exact Hle |]]].
  split; [reflexivity | split; [reflexivity | split; [reflexivity |]]].
  intros Hpos y Hy.
  apply in_map_iff in Hy. destruct Hy as [v [<- Hv]].
  apply Hle in Hv. lra.
Qed.

(** X20. What the chart shows for a boat of positive weight.  The bars
    are weight, buoyant force and a hundred times the actual safety
    factor; the third bar reaches 100 exactly when the buoyancy bar
    reaches the weight bar.  For a requested safety factor of at least
    one a viable design has its buoyancy bar at least as high as its
    weight bar, as the text under the chart says; for a requested safety
    factor of at most one, a buoyancy bar as high as the weight bar makes
    the design viable. *)
Theorem chart_bars (p : Params.t) :
  0 < CalculateDesign.total_boat_weight p ->
  exists (r : Results.t) (weight buoyancy factor : R),
    calculate_design p = Returns r
    /\ UpdateChart.data r = [weight; buoyancy; factor]
    /\ 0 < weight
    /\ (weight <= buoyancy <-> 100 <= factor)
    /\ (1 <= Params.safety_factor p ->
        Results.status r = VIABLE -> weight <= buoyancy)
    /\ (Params.safety_factor p <= 1 ->
        weight <= buoyancy -> Results.status r = VIABLE).
Proof.
  intros Hw.
  pose proof (le_div_iff (CalculateDesign.total_buoyant_force p)
                (CalculateDesign.total_boat_weight p) 1 Hw) as H1.
  do 4 eexists.
  split; [apply calculate_design_returns; lra |].
  unfold UpdateChart.data.
  cbn [Results.total_boat_weight Results.total_buoyant_force
       Results.actual_safety_factor Results.status].
  split; [reflexivity | split; [exact Hw |]].
  rewrite status_VIABLE. unfold CalculateDesign.required_displacement,
    CalculateDesign.safety_factor.
  split; [| split].
  - split; intros H.
    + assert (1 <= CalculateDesign.total_buoyant_force p
                   / CalculateDesign.total_boat_weight p)
        by (apply H1; lra).
      lra.
    + assert (CalculateDesign.total_boat_weight p * 1
              <= CalculateDesign.total_buoyant_force p)
        by (apply H1; lra).
      lra.
  - intros Hsf Hst.
    assert (CalculateDesign.total_boat_weight p * 1
            <= CalculateDesign.total_boat_weight p * Params.safety_factor p)
      by (apply Rmult_le_compat_l; lra).
    lra.
  - intros Hsf Hle.
    assert (CalculateDesign.total_boat_weight p * Params.safety_factor p
            <= CalculateDesign.total_boat_weight p * 1)
      by (apply Rmult_le_compat_l; lra).
    lra.
Qed.

Lemma chart_bars_witness :
  exists (r : Results.t) (weight buoyancy factor : R),
    calculate_design literal_scenario = Returns r
    /\ UpdateChart.data r = [weight; buoyancy; factor]
    /\ (weight <= buoyancy <-> 100 <= factor).
Proof.
  destruct (chart_bars literal_scenario literal_scenario_weight_positive)
    as [r [w [b [f [H1 [H2 [_ [H3 _]]]]]]]].
  exists r, w, b, f. exact (conj H1 (conj H2 H3)).
Defined.

(** * Auto-Optimize on a meaningful mission *)




(** * Unguarded inputs *)

(** X22. Nothing guards against a negative total weight.  With a
    negative total weight, a non-negative safety factor and a
    non-negative buoyant force the call returns, the status is VIABLE
    and the reserve buoyancy is positive, although the actual safety
    factor is not positive. *)
Theorem negative_weight_is_viable (p : Params.t) :
  CalculateDesign.total_boat_weight p < 0 ->
  0 <= Params.safety_factor p ->
  0 <= CalculateDesign.total_buoyant_force p ->
  exists r,
    calculate_design p = Returns r
    /\ Results.status r = VIABLE
    /\ Results.actual_safety_factor r <= 0
    /\ 0 < Results.reserve_buoyancy r.
Proof.
  intros Hw Hsf Hb.
  eexists. split; [apply calculate_design_returns; lra |].
  cbn [Results.status Results.actual_safety_factor Results.reserve_buoyancy].
  split; [| split].
  - apply status_VIABLE.
    unfold CalculateDesign.required_displacement,
      CalculateDesign.safety_factor.
    assert (0 <= - CalculateDesign.total_boat_weight p
                 * Params.safety_factor p) by (apply Rmult_le_pos; lra).
    lra.
  - assert (0 <= CalculateDesign.total_buoyant_force p
                 * / - CalculateDesign.total_boat_weight p).
    { apply Rmult_le_pos; [exact Hb |].
      left. apply Rinv_0_lt_compat. lra. }
    replace (CalculateDesign.total_buoyant_force p
             / CalculateDesign.total_boat_weight p)
      with (- (CalculateDesign.total_buoyant_force p
               * / - CalculateDesign.total_boat_weight p))
      by (field; lra).
    lra.
  - unfold CalculateDesign.reserve_buoyancy. lra.
Qed.

Lemma negative_weight_is_viable_witness :
  exists r,
    calculate_design (with_payload literal_scenario (-200)) = Returns r
    /\ Results.status r = VIABLE
    /\ Results.actual_safety_factor r <= 0.
Proof.
  destruct (negative_weight_is_viable (with_payload literal_scenario (-200)))
    as [r [H1 [H2 [H3 _]]]].
  - unfold with_payload, literal_scenario. locals.
    pose proof (sqrt_sum_squares_bounds (12 / 12 / 2) (6 * (25 / 100)))
      as [_ [_ Hs]].
    rewrite !Rabs_pos_eq in Hs by lra. lra.
  - cbn. lra.
  - unfold with_payload, literal_scenario. locals. lra.
  - exists r. exact (conj H1 (conj H2 H3)).
Defined.

(** X24. The size depends on the inputs only through the required
    volume: two inputs with the same non-negative required volume over
    pi, for instance one with twice the payload and half the safety
    factor of the other, get the same diameter and length. *)
Theorem optimizer_depends_on_volume (p q : Params.t) :
  Params.water_density p * (Params.submersion_pct p / 100) <> 0 ->
  Params.water_density q * (Params.submersion_pct q / 100) <> 0 ->
  0 <= radicand p ->
  radicand p = radicand q ->
  optimize_design p = optimize_design q
  /\ exists size, optimize_design p = Returns size.
Proof.
  intros Hp Hq Hx Hpq.
  destruct (optimize_design_returns p Hp Hx) as [D [HD [Hc Hr]]].
  destruct (optimize_design_returns q Hq) as [D' [HD' [Hc' Hr']]];
    [lra |].
  assert (D = D') by (apply cube_inj; try assumption; lra).
  subst D'. rewrite Hr, Hr'. split; [reflexivity | eauto].
Qed.

Lemma optimizer_depends_on_volume_witness :
  optimize_design literal_scenario
  = optimize_design
      (with_safety_factor (with_payload literal_scenario 200) 0.9).
Proof.
  apply (optimizer_depends_on_volume literal_scenario
           (with_safety_factor (with_payload literal_scenario 200) 0.9));
    unfold radicand, math_pi, with_safety_factor, with_payload,
      literal_scenario; locals; lra.
Defined.
